(** * AI-radio: playlist scheduling, narration segments and publication

    A shallow embedding of [backend/models.py], [backend/scheduler.py],
    [backend/ai_generator.py] and the [generate_dj_intro],
    [create_daily_playlist] and [health_check] tasks of
    [backend/celery_tasks.py], followed by the properties of the playlist
    life cycle (selection, narration, export, activation and retention), of
    the daily run, and of playback and recommendations. *)

From Stdlib Require Import Uint63 PrimFloat FloatOps SpecFloat ZArith.
From stdpp Require Import gmap strings list fin_maps pretty sorting.

Local Open Scope Z_scope.

(** ** The data model ([backend/models.py])

    Tables with a primary key that the code looks rows up by ([User],
    [Upload], [Playlist]) are maps from the id to the row.  [Segment] and
    [PlaylistEntry] rows are only ever reached through a foreign key, in
    insertion order, so these tables are lists of rows.  The records have the
    columns that the scheduler, the AI host and the intro task read or write;
    [StreamStatus] and the play counters are not needed here. *)

(** A [datetime], as seconds since the epoch. *)
Abbreviation datetime := Z (only parsing).

Record User := mkUser {
  username : string
}.

Record Upload := mkUpload {
  user_id : nat;
  title : string;
  description : option string;
  media_type : string;
  category : option string;
  filename : option string;
  duration : option Z;
  status : string;
  uploaded_at : datetime
}.

Record Segment := mkSegment {
  segment_id : nat;
  segment_upload_id : nat;
  dj_intro_text : option string;
  dj_intro_audio : option string;
  position_in_playlist : option Z
}.

Record Playlist := mkPlaylist {
  name : string;
  playlist_description : string;
  is_active : bool;
  created_at : datetime
}.

Record PlaylistEntry := mkPlaylistEntry {
  playlist_id : nat;
  upload_id : nat;
  position : Z
}.

Record DB := mkDB {
  users : gmap nat User;
  uploads : gmap nat Upload;
  segments : list Segment;
  playlists : gmap nat Playlist;
  entries : list PlaylistEntry
}.

#[global] Instance User_eq_dec : EqDecision User.
Proof. solve_decision. Defined.
#[global] Instance Upload_eq_dec : EqDecision Upload.
Proof. solve_decision. Defined.
#[global] Instance Segment_eq_dec : EqDecision Segment.
Proof. solve_decision. Defined.
#[global] Instance Playlist_eq_dec : EqDecision Playlist.
Proof. solve_decision. Defined.
#[global] Instance PlaylistEntry_eq_dec : EqDecision PlaylistEntry.
Proof. solve_decision. Defined.

(** ** The world the code runs in

    Besides the database session, the code touches the file system, the
    global random generator, the clock and the AI Brain server.  The file
    system maps a path to the content of the file; the random generator is the
    sequence of numbers it is going to return; the AI Brain is the sequence of
    replies it is going to give, and [brain_log] records the endpoints that
    were contacted.

    [committed] is the database as other sessions see it, [db] is the view of
    the running session (what was added to the session is visible to its
    queries, as with autoflush); [observed] records, after every commit and
    every change of a file, the state an outside observer could read at that
    moment.  The clock [now] stands still during a run, and local time and UTC
    are the same. *)

Inductive brain_reply :=
| NoReply                               (* time-out, refused, status <> 200 *)
| Json (fields : gmap string string).   (* status 200, a JSON object of strings *)

Record World := mkWorld {
  db : DB;
  committed : DB;
  fs : gmap string string;
  rng : list nat;
  now : datetime;
  brain : list brain_reply;
  brain_log : list string;
  observed : list (DB * gmap string string)
}.

Definition set_db (f : DB → DB) (w : World) : World :=
  mkWorld (f (db w)) (committed w) (fs w) (rng w) (now w) (brain w)
          (brain_log w) (observed w).

Definition set_fs (f : gmap string string → gmap string string) (w : World) : World :=
  mkWorld (db w) (committed w) (f (fs w)) (rng w) (now w) (brain w)
          (brain_log w) (observed w ++ [(committed w, f (fs w))]).

Definition set_rng (g : list nat) (w : World) : World :=
  mkWorld (db w) (committed w) (fs w) g (now w) (brain w)
          (brain_log w) (observed w).

(** ** Exceptions and the state monad of the embedding *)

Inductive exn :=
| ValueError
| AttributeError (attribute : string)   (* an attribute of [None] *)
| Failure (msg : string)      (* [raise Exception(msg)] *)
| Retry (countdown : Z).      (* [raise self.retry(countdown=...)] *)

Inductive outcome (A : Type) :=
| Returned (a : A)
| Raised (e : exn).
Arguments Returned {A} a.
Arguments Raised {A} e.

Definition M (A : Type) : Type := World → outcome A * World.

Definition ret {A} (a : A) : M A := λ w, (Returned a, w).
Definition raise {A} (e : exn) : M A := λ w, (Raised e, w).
Definition bind {A B} (m : M A) (k : A → M B) : M B :=
  λ w, match m w with
       | (Returned a, w') => k a w'
       | (Raised e, w') => (Raised e, w')
       end.
Definition try_except {A} (m : M A) (handler : exn → M A) : M A :=
  λ w, match m w with
       | (Returned a, w') => (Returned a, w')
       | (Raised e, w') => handler e w'
       end.
Definition get_world : M World := λ w, (Returned w, w).
Definition modify (f : World → World) : M unit := λ w, (Returned tt, f w).

#[global] Instance M_ret : MRet M := @ret.
#[global] Instance M_bind : MBind M := λ A B k m, bind m k.

(** [for x in l: body x] *)
Fixpoint for_each {A} (l : list A) (body : A → M unit) : M unit :=
  match l with
  | [] => ret tt
  | x :: l' => body x ;; for_each l' body
  end.

(** The object [o], about to be read at [attribute]: [None] has none. *)
Definition attr {A} (attribute : string) (o : option A) : M A :=
  match o with
  | Some a => ret a
  | None => raise (AttributeError attribute)
  end.

(** ** Session, file system, generator and server primitives *)

Definition db_session_commit : M unit :=
  modify (λ w, mkWorld (db w) (db w) (fs w) (rng w) (now w) (brain w)
                       (brain_log w) (observed w ++ [(db w, fs w)])).

Definition os_path_join (dir file : string) : string := dir +:+ "/" +:+ file.

Definition os_path_exists (path : string) : M bool :=
  w ← get_world; ret (bool_decide (path ∈ dom (fs w))).

(** [open(path, 'w')] creates or truncates the file. *)
Definition open_w (path : string) : M unit :=
  modify (set_fs (λ f, <[path := ""]> f)).

Definition f_write (path data : string) : M unit :=
  modify (set_fs (λ f, <[path := default "" (f !! path) +:+ data]> f)).

Definition os_remove (path : string) : M unit :=
  modify (set_fs (λ f, delete path f)).

(** [random._randbelow n]. *)
Definition randbelow (n : nat) : M nat :=
  λ w, match rng w with
       | [] => (Returned 0%nat, w)
       | r :: g =>
           (Returned (r `mod` n)%nat, set_rng g w)
       end.

(** [random.choice seq]. *)
Definition random_choice {A} (seq : list A) : M A :=
  j ← randbelow (length seq);
  match seq !! j with
  | Some x => ret x
  | None => raise (Failure "IndexError")
  end.

(** [random.sample population k]: [k] draws without replacement, each draw
    an index into what is left of the population.  Python raises
    [ValueError] when the sample is larger than the population. *)
Fixpoint draw {A} (pool : list A) (k : nat) : M (list A) :=
  match k with
  | O => ret []
  | S k' =>
      j ← randbelow (length pool);
      match pool !! j with
      | Some x => rest ← draw (delete j pool) k'; ret (x :: rest)
      | None => raise ValueError
      end
  end.

Definition random_sample {A} (population : list A) (k : nat) : M (list A) :=
  if decide (k ≤ length population)%nat then draw population k
  else raise ValueError.

(** [random.shuffle x]: a rearrangement of the list decided by the
    generator, drawn like a sample of the whole list. *)
Definition random_shuffle {A} (x : list A) : M (list A) :=
  draw x (length x).

(** ** Dates and their formats ([datetime.strftime]) *)

(** Year, month and day of a number of days since the epoch. *)
Definition civil_from_days (z : Z) : Z * Z * Z :=
  let z := z + 719468 in
  let era := z `div` 146097 in
  let doe := z - era * 146097 in
  let yoe := (doe - doe `div` 1460 + doe `div` 36524 - doe `div` 146096) `div` 365 in
  let doy := doe - (365 * yoe + yoe `div` 4 - yoe `div` 100) in
  let mp := (5 * doy + 2) `div` 153 in
  let d := doy - (153 * mp + 2) `div` 5 + 1 in
  let m := if bool_decide (mp < 10) then mp + 3 else mp - 9 in
  let y := yoe + era * 400 in
  (if bool_decide (m ≤ 2) then y + 1 else y, m, d).

Definition year (t : datetime) : Z := (civil_from_days (t `div` 86400)).1.1.
Definition month (t : datetime) : Z := (civil_from_days (t `div` 86400)).1.2.
Definition day (t : datetime) : Z := (civil_from_days (t `div` 86400)).2.
Definition hour (t : datetime) : Z := (t `mod` 86400) `div` 3600.
Definition minute (t : datetime) : Z := (t `mod` 3600) `div` 60.
Definition second (t : datetime) : Z := t `mod` 60.

(** Two digits, as [%m], [%d], [%H], [%M] and [%S] print them. *)
Definition pad2 (n : Z) : string :=
  if bool_decide (n < 10) then "0" +:+ pretty n else pretty n.

Definition month_name (m : Z) : string :=
  default "" (["January"; "February"; "March"; "April"; "May"; "June"; "July";
               "August"; "September"; "October"; "November"; "December"]
              !! Z.to_nat (m - 1)).

(** [strftime('%Y-%m-%d')] *)
Definition strftime_Y_m_d (t : datetime) : string :=
  pretty (year t) +:+ "-" +:+ pad2 (month t) +:+ "-" +:+ pad2 (day t).

(** [strftime('%B %d, %Y')] *)
Definition strftime_B_d_Y (t : datetime) : string :=
  month_name (month t) +:+ " " +:+ pad2 (day t) +:+ ", " +:+ pretty (year t).

(** [strftime('%Y%m%d_%H%M%S')] *)
Definition strftime_Ymd_HMS (t : datetime) : string :=
  pretty (year t) +:+ pad2 (month t) +:+ pad2 (day t) +:+ "_" +:+
  pad2 (hour t) +:+ pad2 (minute t) +:+ pad2 (second t).

(** ** Queries and inserts of the database session *)

(** [Upload.query.filter_by(status=st, media_type=mt).all()]: the rows with
    their ids, in the order of the table. *)
Definition uploads_filter_by (d : DB) (st mt : string) : list (nat * Upload) :=
  filter (λ r, status r.2 = st ∧ media_type r.2 = mt) (map_to_list (uploads d)).

Definition Upload_query_filter_by (st mt : string) : M (list (nat * Upload)) :=
  w ← get_world; ret (uploads_filter_by (db w) st mt).

(** The id an auto-incremented primary key gives to a new row. *)
Definition next_id (ids : list nat) : nat := S (max_list ids).

(** [db.session.add(playlist); db.session.flush()]: the row gets its id. *)
Definition db_session_add_playlist (p : Playlist) : M nat :=
  w ← get_world;
  let id := next_id ((map_to_list (playlists (db w))).*1) in
  modify (set_db (λ d, mkDB (users d) (uploads d) (segments d)
                            (<[id := p]> (playlists d)) (entries d)));;
  ret id.

Definition db_session_add_entry (e : PlaylistEntry) : M unit :=
  modify (set_db (λ d, mkDB (users d) (uploads d) (segments d)
                            (playlists d) (entries d ++ [e]))).

(** [playlist.entries] *)
Definition playlist_entries (d : DB) (id : nat) : list PlaylistEntry :=
  filter (λ e, playlist_id e = id) (entries d).

(** ** PlaylistManager ([backend/scheduler.py]) *)

Definition playlist_dir : string :=
  "/Users/basil_jackson/Documents/ai_radio/media/playlists".

(** [int(x)] of a finite float: truncation towards zero. *)
Definition int_of_float (x : float) : Z :=
  match Prim2SF x with
  | S754_finite s m e =>
      let v := if bool_decide (0 ≤ e) then Z.pos m * 2 ^ e
               else Z.pos m `div` 2 ^ (- e) in
      if s then - v else v
  | _ => 0
  end.

Definition total_slots : nat := 50.
(** [int(total_slots * 0.7)], with the double nearest to 0.7. *)
Definition audio_slots : nat :=
  Z.to_nat (int_of_float (PrimFloat.mul (PrimFloat.of_uint63 50%uint63)
                                        0x1.6666666666666p-1%float)).
Definition video_slots : nat := (total_slots - audio_slots)%nat.

Definition create_daily_playlist (date : option datetime) : M (option nat) :=
  w ← get_world;
  let date := default (now w) date in
  audio_content ← Upload_query_filter_by "approved" "audio";
  video_content ← Upload_query_filter_by "approved" "video";
  if bool_decide (audio_content = [] ∧ video_content = []) then ret None
  else
      let playlist_name := "Daily Mix - " +:+ strftime_Y_m_d date in
      playlist ← db_session_add_playlist
        (mkPlaylist playlist_name
           ("AI-curated daily playlist for " +:+ strftime_B_d_Y date)
           false (now w));
      audio_picks ←
        match audio_content with
        | [] => ret []
        | _ => random_sample audio_content
                 (audio_slots `min` length audio_content)
        end;
      video_picks ←
        match video_content with
        | [] => ret []
        | _ => random_sample video_content
                 (video_slots `min` length video_content)
        end;
      selected_content ← random_shuffle (audio_picks ++ video_picks);
      for_each (imap (λ position upload, (position, upload)) selected_content)
        (λ pu, db_session_add_entry
                 (mkPlaylistEntry playlist (pu.2).1 (Z.of_nat pu.1)));;
      db_session_commit;;
      ret (Some playlist).

(** ** The AI host and the speech synthesis ([backend/ai_generator.py]) *)

(** A Python dict with string keys: [metadata] may hold [None] values,
    the intro result and the JSON replies hold strings. *)
Abbreviation dict A := (gmap string A) (only parsing).

(** How an f-string prints a value that may be [None]. *)
Definition py_str (v : option string) : string := default "None" v.

(** [metadata.get(key, dflt)], printed. *)
Definition metadata_get (metadata : dict (option string)) (key dflt : string) : string :=
  match metadata !! key with
  | Some v => py_str v
  | None => dflt
  end.

(** [requests.post] to the AI Brain: the JSON object of a 200 reply, [None]
    on any other status and on a connection error or time-out. *)
Definition call_ai_brain (endpoint : string) : M (option (dict string)) :=
  λ w, let reply := match head (brain w) with
                    | Some (Json fields) => Some fields
                    | _ => None
                    end in
       (Returned reply,
        mkWorld (db w) (committed w) (fs w) (rng w) (now w) (tail (brain w))
                (brain_log w ++ [endpoint]) (observed w)).

Definition select_personality (time_of_day : option Z) : M string :=
  w ← get_world;
  let hour := match time_of_day with
              | Some h => if bool_decide (h = 0) then hour (now w) else h
              | None => hour (now w)
              end in
  if bool_decide (6 ≤ hour < 10) then random_choice ["energetic"; "professional"]
  else if bool_decide (10 ≤ hour < 16) then random_choice ["professional"; "chill"]
  else if bool_decide (16 ≤ hour < 20) then random_choice ["energetic"; "quirky"]
  else random_choice ["chill"; "quirky"].

Definition generate_fallback_intro (metadata : dict (option string))
    (personality : string) : dict string :=
  let templates : dict string :=
    {[ "energetic" :=
         "Hey there! Here's something awesome - " +:+
         metadata_get metadata "title" "this track" +:+ " created by " +:+
         metadata_get metadata "username" "one of our AI creators" +:+
         "! Let's dive in!";
       "chill" :=
         "Here's a nice piece for you - " +:+
         metadata_get metadata "title" "this content" +:+ " from " +:+
         metadata_get metadata "username" "our community" +:+
         ". Enjoy this AI-generated creation.";
       "professional" :=
         "Coming up now, we have " +:+
         metadata_get metadata "title" "a new piece" +:+ " created by " +:+
         metadata_get metadata "username" "one of our contributors" +:+
         ". This AI-generated content showcases the creative potential of artificial intelligence.";
       "quirky" :=
         "Beep boop! The AI overlords present " +:+
         metadata_get metadata "title" "this fantastic creation" +:+ " by " +:+
         metadata_get metadata "username" "a fellow AI enthusiast" +:+
         ". Prepare for artificial awesomeness!" ]} in
  {[ "text" := default (default "" (templates !! "professional"))
                       (templates !! personality);
     "personality" := personality ]}.

(** [str.strip()], for the ASCII white space. *)
Definition is_space (c : Ascii.ascii) : bool :=
  let n := Ascii.nat_of_ascii c in
  bool_decide (9 ≤ n ≤ 13 ∨ 28 ≤ n ≤ 32)%nat.

Fixpoint lstrip (s : string) : string :=
  match s with
  | String c s' => if is_space c then lstrip s' else s
  | EmptyString => EmptyString
  end.

Definition strip (s : string) : string :=
  String.rev (lstrip (String.rev (lstrip s))).

(** The personalities [load_personalities] defines.  [generate_intro] reads
    them for the prompt; the prompt itself is not modelled, the reply of the
    AI Brain being given by [brain]. *)
Definition personalities : list string :=
  ["energetic"; "chill"; "professional"; "quirky"].

Definition generate_intro (metadata : dict (option string)) : M (dict string) :=
  try_except
    (personality_name ← select_personality None;
     (if bool_decide (personality_name ∈ personalities) then ret tt
      else raise (Failure "KeyError"));;
     response ← call_ai_brain "generate_text";
     match response ≫= (.!! "text") with
     | Some text =>
         ret ({[ "text" := strip text; "personality" := personality_name ]}
                : dict string)
     | None => ret (generate_fallback_intro metadata personality_name)
     end)
    (λ _, ret (generate_fallback_intro metadata "professional")).

Definition output_dir : string :=
  os_path_join "/Users/basil_jackson/Documents/ai_radio/media" "dj_intros".

(** [TTSHandler.generate_audio]: the reply carries the audio bytes under
    [audio_data]; their base64 transport encoding is not modelled. *)
Definition generate_audio (text output_filename : string) : M (option string) :=
  try_except
    (let output_path := os_path_join output_dir (output_filename +:+ ".mp3") in
     response ← call_ai_brain "generate_tts";
     match response ≫= (.!! "audio_data") with
     | Some audio_data =>
         open_w output_path;;
         f_write output_path audio_data;;
         ret (Some output_path)
     | None => ret None
     end)
    (λ _, ret None).

(** ** Narration segments *)

(** [Segment.query.filter_by(upload_id=id).first()] *)
Definition Segment_first (d : DB) (id : nat) : option Segment :=
  list_find (λ s, segment_upload_id s = id) (segments d) ≫= (λ r, Some r.2).

(** [db.session.add(segment)]: the row gets the next id of the table. *)
Definition db_session_add_segment (upload : nat) (text : string)
    (audio : option string) (pos : option Z) : M nat :=
  w ← get_world;
  let id := next_id (segment_id <$> segments (db w)) in
  modify (set_db (λ d, mkDB (users d) (uploads d)
                            (segments d ++
                               [mkSegment id upload (Some text) audio pos])
                            (playlists d) (entries d)));;
  ret id.

(** The [metadata] dict both callers build from an upload; [upload.user] is
    [None] when the user row is missing. *)
Definition metadata_dict (upload : Upload) (user : User) : dict (option string) :=
  {[ "title" := Some (title upload);
     "username" := Some (username user);
     "media_type" := Some (media_type upload);
     "description" := description upload;
     "category" := category upload ]}.

Definition upload_metadata (upload : Upload) : M (dict (option string)) :=
  w ← get_world;
  user ← attr "username" (users (db w) !! user_id upload);
  ret (metadata_dict upload user).

(** [intro_result['text']] *)
Definition intro_text (intro_result : dict string) : M string :=
  match intro_result !! "text" with
  | Some t => ret t
  | None => raise (Failure "KeyError")
  end.

(** The body of the loop of [generate_playlist_segments]. *)
Definition generate_entry_segment (entry : PlaylistEntry) : M unit :=
  w ← get_world;
  upload ← attr "id" (uploads (db w) !! upload_id entry);
  match Segment_first (db w) (upload_id entry) with
  | Some _ => ret tt
  | None =>
      metadata ← upload_metadata upload;
      intro_result ← generate_intro metadata;
      if bool_decide (intro_result = ∅) then ret tt
      else
        w ← get_world;
        let audio_filename :=
          "intro_" +:+ pretty (upload_id entry) +:+ "_" +:+
          strftime_Ymd_HMS (now w) in
        text ← intro_text intro_result;
        audio_path ← generate_audio text audio_filename;
        db_session_add_segment (upload_id entry) text audio_path
                               (Some (position entry));;
        ret tt
  end.

Definition generate_playlist_segments (playlist_id : nat) : M bool :=
  w ← get_world;
  match playlists (db w) !! playlist_id with
  | None => ret false
  | Some _ =>
      for_each (playlist_entries (db w) playlist_id) generate_entry_segment;;
      db_session_commit;;
      ret true
  end.

(** ** The [generate_dj_intro] task ([backend/celery_tasks.py]) *)

Inductive task_result :=
| TaskSuccess (segment : nat) (intro_text personality : string)
| TaskSkipped (message : string)
| TaskError (message : string).

Definition max_retries : Z := 3.

(** [str(e)] *)
Definition exn_message (e : exn) : string :=
  match e with
  | ValueError => "ValueError"
  | AttributeError attribute =>
      "'NoneType' object has no attribute '" +:+ attribute +:+ "'"
  | Failure msg => msg
  | Retry _ => "Retry"
  end.

(** One execution of the task; [retries] is [self.request.retries]. *)
Definition generate_dj_intro (retries : Z) (upload_id : nat) : M task_result :=
  try_except
    (w ← get_world;
     match uploads (db w) !! upload_id with
     | None => ret (TaskError "Upload not found")
     | Some upload =>
         match Segment_first (db w) upload_id with
         | Some _ => ret (TaskSkipped "Intro already exists")
         | None =>
             metadata ← upload_metadata upload;
             intro_result ← generate_intro metadata;
             (if bool_decide (intro_result = ∅)
              then raise (Failure "Failed to generate intro text")
              else ret tt);;
             let audio_filename :=
               "intro_" +:+ pretty upload_id +:+ "_" +:+
               pretty (uploaded_at upload) in
             text ← intro_text intro_result;
             audio_path ← generate_audio text audio_filename;
             match audio_path with
             | None | Some "" => raise (Failure "Failed to generate intro audio")
             | Some _ =>
                 segment ← db_session_add_segment upload_id text audio_path None;
                 db_session_commit;;
                 ret (TaskSuccess segment
                        (String.substring 0 100 text +:+ "...")
                        (default "default" (intro_result !! "personality")))
             end
         end
     end)
    (λ e,
       if bool_decide (retries < max_retries)
       then raise (Retry (2 ^ retries))
       else ret (TaskError (exn_message e))).

(** ** Export and activation ([backend/scheduler.py]) *)

(** The line feed that ends every line of the export file. *)
Definition LF : string := String (Ascii.ascii_of_nat 10) EmptyString.

(** [sorted(entries, key=lambda x: x.position)]: a stable sort. *)
Fixpoint insert_by_position (e : PlaylistEntry) (l : list PlaylistEntry)
    : list PlaylistEntry :=
  match l with
  | [] => [e]
  | x :: l' =>
      if bool_decide (position e ≤ position x) then e :: l
      else x :: insert_by_position e l'
  end.

Definition sorted_by_position (l : list PlaylistEntry) : list PlaylistEntry :=
  foldr insert_by_position [] l.

Definition m3u_path_of (playlist_id : nat) : string :=
  os_path_join playlist_dir ("playlist_" +:+ pretty playlist_id +:+ ".m3u").

(** The two blocks of the loop of [export_playlist_to_m3u]: "Write DJ intro
    if exists" and "Write main content". *)
Definition write_dj_intro (m3u_path : string) (entry : PlaylistEntry)
    (upload : Upload) : M unit :=
  w ← get_world;
  let segment := Segment_first (db w) (upload_id entry) in
  match segment ≫= dj_intro_audio with
  | Some audio =>
      audio_exists ← os_path_exists audio;
      if bool_decide (audio ≠ "") && audio_exists then
        f_write m3u_path (("#EXTINF:-1,DJ Intro - " +:+ title upload) +:+ LF);;
        f_write m3u_path (audio +:+ LF)
      else ret tt
  | None => ret tt
  end.

(** [upload.duration or -1] *)
Definition duration_or_unknown (upload : Upload) : Z :=
  match duration upload with
  | Some d => if bool_decide (d = 0) then -1 else d
  | None => -1
  end.

Definition write_main_content (m3u_path : string) (upload : Upload) : M unit :=
  match filename upload with
  | Some file =>
      file_exists ← os_path_exists file;
      if bool_decide (file ≠ "") && file_exists then
        w ← get_world;
        user ← attr "username" (users (db w) !! user_id upload);
        f_write m3u_path
          (("#EXTINF:" +:+ pretty (duration_or_unknown upload) +:+ "," +:+
            title upload +:+ " - " +:+ username user) +:+ LF);;
        f_write m3u_path (file +:+ LF)
      else ret tt
  | None => ret tt
  end.

(** The body of the loop of [export_playlist_to_m3u]. *)
Definition export_entry (m3u_path : string) (entry : PlaylistEntry) : M unit :=
  w ← get_world;
  upload ← attr "id" (uploads (db w) !! upload_id entry);
  write_dj_intro m3u_path entry upload;;
  write_main_content m3u_path upload.

Definition export_playlist_to_m3u (playlist_id : nat) : M (option string) :=
  w ← get_world;
  match playlists (db w) !! playlist_id with
  | None => ret None
  | Some _ =>
      let m3u_path := m3u_path_of playlist_id in
      open_w m3u_path;;
      f_write m3u_path ("#EXTM3U" +:+ LF);;
      for_each (sorted_by_position (playlist_entries (db w) playlist_id))
               (export_entry m3u_path);;
      ret (Some m3u_path)
  end.

(** [subprocess.run(['cp', m3u_path, current], check=True)] inside
    [try ... except CalledProcessError]: [cp] fails when the source is
    missing, and the failure is only printed. *)
Definition update_streaming_playlist (m3u_path : string) : M unit :=
  w ← get_world;
  let current_playlist_path := os_path_join playlist_dir "current.m3u" in
  match fs w !! m3u_path with
  | Some content => modify (set_fs (λ f, <[current_playlist_path := content]> f))
  | None => ret tt
  end.

(** [Playlist.query.filter_by(is_active=True).first()] *)
Definition Playlist_first_active (d : DB) : option nat :=
  list_find (λ r, is_active r.2 = true) (map_to_list (playlists d))
    ≫= (λ r, Some (r.2).1).

(** [playlist.is_active = b] on the row [id] of the session. *)
Definition set_is_active (id : nat) (b : bool) (d : DB) : DB :=
  mkDB (users d) (uploads d) (segments d)
       (alter (λ p, mkPlaylist (name p) (playlist_description p) b (created_at p))
              id (playlists d))
       (entries d).

Definition activate_playlist (playlist_id : nat) : M bool :=
  w ← get_world;
  match Playlist_first_active (db w) with
  | Some current => modify (set_db (set_is_active current false))
  | None => ret tt
  end;;
  w ← get_world;
  match playlists (db w) !! playlist_id with
  | Some _ =>
      modify (set_db (set_is_active playlist_id true));;
      db_session_commit;;
      m3u_path ← export_playlist_to_m3u playlist_id;
      match m3u_path with
      | Some path =>
          if bool_decide (path ≠ "") then update_streaming_playlist path
          else ret tt
      | None => ret tt
      end;;
      ret true
  | None => ret false
  end.

(** ** SchedulerService *)

Definition run_daily_scheduling : M (option nat) :=
  try_except
    (w ← get_world;
     playlist ← create_daily_playlist (Some (now w));
     match playlist with
     | Some id =>
         generate_playlist_segments id;;
         activate_playlist id;;
         ret (Some id)
     | None => ret None
     end)
    (λ _, ret None).

(** The body of the loop of [cleanup_old_playlists]: remove the M3U file,
    delete the entries, delete the playlist. *)
Definition cleanup_playlist (playlist : nat * Playlist) : M unit :=
  let m3u_path := m3u_path_of playlist.1 in
  m3u_exists ← os_path_exists m3u_path;
  (if m3u_exists : bool then os_remove m3u_path else ret tt);;
  modify (set_db (λ d, mkDB (users d) (uploads d) (segments d) (playlists d)
                            (filter (λ e, playlist_id e ≠ playlist.1) (entries d))));;
  modify (set_db (λ d, mkDB (users d) (uploads d) (segments d)
                            (delete playlist.1 (playlists d)) (entries d))).

(** [days_to_keep] defaults to 7 in the source. *)
Definition cleanup_old_playlists (days_to_keep : Z) : M unit :=
  w ← get_world;
  let cutoff_date := now w - days_to_keep * 86400 in
  let old_playlists :=
    filter (λ r, created_at r.2 < cutoff_date ∧ is_active r.2 = false)
           (map_to_list (playlists (db w))) in
  for_each old_playlists cleanup_playlist;;
  db_session_commit.

Definition default_days_to_keep : Z := 7.

(** ** Transitions between items ([backend/ai_generator.py]) *)

Definition generate_fallback_transition (current next_item : dict (option string))
    (personality : string) : dict string :=
  let templates : dict string :=
    {[ "energetic" :=
         "That was incredible! Now let's keep the energy going with " +:+
         metadata_get next_item "title" "our next track" +:+ "!";
       "chill" :=
         "Nice. Coming up, we have " +:+
         metadata_get next_item "title" "something else" +:+
         " for you to enjoy.";
       "professional" :=
         "Next in our lineup is " +:+
         metadata_get next_item "title" "another AI creation" +:+ " by " +:+
         metadata_get next_item "username" "our community" +:+ ".";
       "quirky" :=
         "Plot twist! Here comes " +:+
         metadata_get next_item "title" "the next adventure" +:+
         ". AI creativity never sleeps!" ]} in
  {[ "text" := default (default "" (templates !! "professional"))
                       (templates !! personality);
     "personality" := personality ]}.


(** ** The [health_check] task ([backend/celery_tasks.py]) *)

Record health_status := mkHealth {
  database : string;
  ai_brain : string;
  disk_usage : float;
  disk_status : string;
  overall : string
}.

(** The status [health_check] builds from its three probes: whether
    [db.session.execute('SELECT 1')] went through, what
    [test_ai_brain_connection()] answered, and the ratio [get_disk_usage]
    returned.  [0x1.ccccccccccccdp-1] is the double [0.9]. *)
Definition health_check (db_ok ai_brain_ok : bool) (usage : float) : health_status :=
  let db_status := if db_ok then "healthy" else "error" in
  let ai_brain_status := if ai_brain_ok then "healthy" else "error" in
  let disk_status :=
    if PrimFloat.ltb usage 0x1.ccccccccccccdp-1%float then "healthy" else "warning" in
  mkHealth db_status ai_brain_status usage disk_status
    (if forallb (λ s, bool_decide (s ∈ ["healthy"; "warning"]))
                [db_status; ai_brain_status; disk_status]
     then "healthy" else "error").

(** ** The [create_daily_playlist] task ([backend/celery_tasks.py]) *)

Inductive schedule_result :=
| ScheduleSuccess (playlist_id : nat) (playlist_name : string)
| ScheduleError (message : string).

(** [playlist.name] is read from the row of the session. *)
Definition create_daily_playlist_task : M schedule_result :=
  try_except
    (playlist ← run_daily_scheduling;
     match playlist with
     | Some id =>
         w ← get_world;
         p ← attr "name" (playlists (db w) !! id);
         ret (ScheduleSuccess id (name p))
     | None => ret (ScheduleError "Failed to create daily playlist")
     end)
    (λ e, ret (ScheduleError (exn_message e))).

(** ** Playback status and play history ([backend/scheduler.py]) *)

(** A row of [StreamStatus] ([backend/models.py]). *)
Record StreamStatus := mkStreamStatus {
  current_upload_id : option nat;
  current_segment_id : option nat;
  started_at : option datetime;
  listeners : Z
}.

(** The columns of [Upload] that playback reads and writes, kept by upload
    id: [played_count] (default 0), [last_played] and [thumbnail_path]. *)
Record PlayColumns := mkPlayColumns {
  played_count : Z;
  last_played : option datetime;
  thumbnail_path : option string
}.

(** The [StreamStatus] table, in the order of its ids, and the play columns
    of the uploads. *)
Record Playback := mkPlayback {
  stream_status : list StreamStatus;
  play_columns : gmap nat PlayColumns
}.

Definition columns_of (p : Playback) (id : nat) : PlayColumns :=
  default (mkPlayColumns 0 None None) (play_columns p !! id).

(** [update_now_playing] over the database [d] at the time [utcnow]; the
    result is the state it commits.  A new [StreamStatus()] gets the column
    default [listeners = 0]. *)
Definition update_now_playing (d : DB) (utcnow : datetime) (upload_id : nat)
    (segment_id : option nat) (p : Playback) : Playback :=
  let rows :=
    match stream_status p with
    | status :: rest =>
        mkStreamStatus (Some upload_id) segment_id (Some utcnow) (listeners status)
        :: rest
    | [] => [mkStreamStatus (Some upload_id) segment_id (Some utcnow) 0]
    end in
  let columns :=
    match uploads d !! upload_id with
    | Some _ =>
        let c := columns_of p upload_id in
        <[upload_id := mkPlayColumns (played_count c + 1) (Some utcnow)
                                     (thumbnail_path c)]> (play_columns p)
    | None => play_columns p
    end in
  mkPlayback rows columns.

(** [Segment.query.get(id)] *)
Definition Segment_get (d : DB) (id : nat) : option Segment :=
  list_find (λ s, segment_id s = id) (segments d) ≫= (λ r, Some r.2).

(** [datetime.isoformat()] of a time without microseconds. *)
Definition isoformat (t : datetime) : string :=
  pretty (year t) +:+ "-" +:+ pad2 (month t) +:+ "-" +:+ pad2 (day t) +:+ "T" +:+
  pad2 (hour t) +:+ ":" +:+ pad2 (minute t) +:+ ":" +:+ pad2 (second t).

(** The dict [get_current_playing] returns. *)
Record NowPlaying := mkNowPlaying {
  np_id : nat;
  np_title : string;
  np_username : string;
  np_media_type : string;
  np_category : option string;
  np_duration : option Z;
  np_thumbnail_path : option string;
  np_segment : option (nat * option string);
  np_started_at : option string;
  np_listeners : Z
}.

(** An id that is [None] or [0] is falsy. *)
Definition get_current_playing (d : DB) (p : Playback) : outcome (option NowPlaying) :=
  match head (stream_status p) with
  | None => Returned None
  | Some status =>
      match current_upload_id status with
      | None | Some O => Returned None
      | Some id =>
          let segment :=
            match current_segment_id status with
            | None | Some O => None
            | Some sid => Segment_get d sid
            end in
          match uploads d !! id with
          | None => Raised (AttributeError "id")
          | Some upload =>
              match users d !! user_id upload with
              | None => Raised (AttributeError "username")
              | Some user =>
                  Returned (Some (mkNowPlaying
                    id (title upload) (username user) (media_type upload)
                    (category upload) (duration upload)
                    (thumbnail_path (columns_of p id))
                    ((λ s, (segment_id s, dj_intro_text s)) <$> segment)
                    (isoformat <$> started_at status)
                    (listeners status)))
              end
          end
      end
  end.

(** [ORDER BY]: a stable insertion sort for the comparison [le]. *)
Fixpoint insert_by {A} (le : A → A → bool) (x : A) (l : list A) : list A :=
  match l with
  | [] => [x]
  | y :: l' => if le x y then x :: l else y :: insert_by le x l'
  end.

Definition order_by {A} (le : A → A → bool) (l : list A) : list A :=
  foldr (insert_by le) [] l.

(** [order_by(Upload.played_count.asc())], and the same query after
    [.order_by(Upload.played_count.desc())]: SQLAlchemy appends the second
    criterion to the first, it only compares rows the first one ties. *)
Definition played_count_asc (p : Playback) (x y : nat * Upload) : bool :=
  bool_decide (played_count (columns_of p x.1) ≤ played_count (columns_of p y.1)).

Definition played_count_asc_desc (p : Playback) (x y : nat * Upload) : bool :=
  bool_decide (played_count (columns_of p x.1) < played_count (columns_of p y.1))
  || (bool_decide (played_count (columns_of p x.1) = played_count (columns_of p y.1))
      && bool_decide (played_count (columns_of p y.1) ≤ played_count (columns_of p x.1))).

(** The base query: approved, and not played in the last 24 hours. *)
Definition not_recently_played (p : Playback) (recent_cutoff : datetime)
    (r : nat * Upload) : Prop :=
  match last_played (columns_of p r.1) with
  | None => True
  | Some t => t < recent_cutoff
  end.

#[global] Instance not_recently_played_dec p recent_cutoff r :
  Decision (not_recently_played p recent_cutoff r).
Proof.
  unfold not_recently_played. destruct (last_played (columns_of p r.1)); apply _.
Defined.

(** "Remove duplicates": the loop over [recommendations] with its set [seen]. *)
Fixpoint unique_by_id (seen : gset nat) (recs : list (nat * Upload))
    : list (nat * Upload) :=
  match recs with
  | [] => []
  | rec :: rest =>
      if decide (rec.1 ∈ seen) then unique_by_id seen rest
      else rec :: unique_by_id ({[rec.1]} ∪ seen) rest
  end.

Definition fresh_content (p : Playback) (query : list (nat * Upload))
    : list (nat * Upload) :=
  take 10 (order_by (played_count_asc p)
             (filter (λ r, played_count (columns_of p r.1) = 0) query)).

Definition popular_content (p : Playback) (query : list (nat * Upload))
    : list (nat * Upload) :=
  take 10 (order_by (played_count_asc_desc p)
             (filter (λ r, 1 ≤ played_count (columns_of p r.1) ≤ 5) query)).

(** The argument [user_id] of the source is not used by it. *)
Definition generate_content_recommendations (p : Playback)
    : M (list (nat * Upload)) :=
  w ← get_world;
  let recent_cutoff := now w - 24 * 3600 in
  let query :=
    filter (λ r, status r.2 = "approved" ∧ not_recently_played p recent_cutoff r)
           (map_to_list (uploads (db w))) in
  let recommendations := fresh_content p query ++ popular_content p query in
  let unique_recommendations := unique_by_id ∅ recommendations in
  shuffled ← random_shuffle unique_recommendations;
  ret (take 20 shuffled).

(** * Predicates of the statements and sample data *)

(** ** Referential integrity *)

(** Referential integrity of [PlaylistEntry.playlist_id] (its foreign key). *)
Definition entries_ok (d : DB) : Prop :=
  Forall (λ e, is_Some (playlists d !! playlist_id e)) (entries d).

#[global] Instance entries_ok_dec (d : DB) : Decision (entries_ok d).
Proof. unfold entries_ok. apply _. Defined.

(** Referential integrity of the entries of a playlist: the upload of the
    entry exists, and so does the user of the upload. *)
Definition entry_ok (d : DB) (e : PlaylistEntry) : Prop :=
  match uploads d !! upload_id e with
  | Some u => is_Some (users d !! user_id u)
  | None => False
  end.

#[global] Instance entry_ok_dec (d : DB) (e : PlaylistEntry) : Decision (entry_ok d e).
Proof. unfold entry_ok. destruct (uploads d !! upload_id e); apply _. Defined.

Definition refs_ok (d : DB) (id : nat) : Prop :=
  Forall (entry_ok d) (playlist_entries d id).

#[global] Instance refs_ok_dec (d : DB) (id : nat) : Decision (refs_ok d id).
Proof. unfold refs_ok. apply _. Defined.

(** Two databases that differ in the playlist table only. *)
Definition same_content (d d' : DB) : Prop :=
  users d = users d' ∧ uploads d = uploads d' ∧
  segments d = segments d' ∧ entries d = entries d'.

(** ** The daily playlist *)

(** The entries [create_daily_playlist] adds for a selection. *)
Definition entries_for (id : nat) (selected : list (nat * Upload)) : list PlaylistEntry :=
  imap (λ i u, mkPlaylistEntry id u.1 (Z.of_nat i)) selected.


(** ** The export file *)


(** The text of a file made of the given lines. *)
Definition unlines (ls : list string) : string :=
  foldr (λ l acc, l +:+ LF +:+ acc) "" ls.

(** The lines the export file holds for one entry, given the set of paths
    that exist: the narration pair when the first segment of the upload has
    an audio path that exists, then the content pair when the file of the
    upload exists. *)
Definition narration_lines (d : DB) (files : gset string) (e : PlaylistEntry)
    (u : Upload) : list string :=
  match Segment_first d (upload_id e) ≫= dj_intro_audio with
  | Some audio =>
      if bool_decide (audio ≠ "") && bool_decide (audio ∈ files)
      then ["#EXTINF:-1,DJ Intro - " +:+ title u; audio]
      else []
  | None => []
  end.

Definition content_lines (d : DB) (files : gset string) (u : Upload) : list string :=
  match filename u, users d !! user_id u with
  | Some file, Some user =>
      if bool_decide (file ≠ "") && bool_decide (file ∈ files)
      then ["#EXTINF:" +:+ pretty (duration_or_unknown u) +:+ "," +:+
            title u +:+ " - " +:+ username user; file]
      else []
  | _, _ => []
  end.

Definition entry_lines (d : DB) (files : gset string) (e : PlaylistEntry) : list string :=
  match uploads d !! upload_id e with
  | Some u => narration_lines d files e u ++ content_lines d files u
  | None => []
  end.

Definition export_lines (d : DB) (files : gset string) (id : nat) : list string :=
  "#EXTM3U" ::
  (sorted_by_position (playlist_entries d id) ≫= entry_lines d files).



(** [w'] differs from [w] in the file system only; what was observed
    meanwhile shows the committed database of [w]. *)
Definition frame (w w' : World) : Prop :=
  db w' = db w ∧ committed w' = committed w ∧ rng w' = rng w ∧
  now w' = now w ∧ brain w' = brain w ∧ brain_log w' = brain_log w ∧
  ∃ snaps, observed w' = observed w ++ snaps ∧
           Forall (λ s, s.1 = committed w) snaps.


(** ** Activation *)

(** The invariant of the active flag. *)
Definition at_most_one_active (d : DB) : Prop :=
  ∀ i j pi pj,
    playlists d !! i = Some pi → playlists d !! j = Some pj →
    is_active pi = true → is_active pj = true → i = j.

Definition unique_active (d : DB) (id : nat) : Prop :=
  (∃ p, playlists d !! id = Some p ∧ is_active p = true) ∧
  ∀ j pj, playlists d !! j = Some pj → is_active pj = true → j = id.

(** The session after the first block of [activate_playlist]:
    "Deactivate current playlist". *)
Definition deactivated (d : DB) : DB :=
  match Playlist_first_active d with
  | Some current => set_is_active current false d
  | None => d
  end.


(** ** Retention *)

(** What retention cleanup removes: the inactive playlists created before
    the cutoff. *)
Definition expired (cutoff : datetime) (p : Playlist) : Prop :=
  created_at p < cutoff ∧ is_active p = false.

Definition removed_by_cleanup (d : DB) (cutoff : datetime) (id : nat) : Prop :=
  match playlists d !! id with
  | Some p => expired cutoff p
  | None => False
  end.

#[global] Instance removed_by_cleanup_dec (d : DB) (cutoff : datetime) (id : nat) :
  Decision (removed_by_cleanup d cutoff id).
Proof.
  unfold removed_by_cleanup, expired. destruct (playlists d !! id); apply _.
Defined.

(** ** Narration *)

(** The personalities the host chooses from at a given hour. *)
Definition personality_bucket (h : Z) : list string :=
  if bool_decide (6 ≤ h < 10) then ["energetic"; "professional"]
  else if bool_decide (10 ≤ h < 16) then ["professional"; "chill"]
  else if bool_decide (16 ≤ h < 20) then ["energetic"; "quirky"]
  else ["chill"; "quirky"].

(** The [text], and the [audio_data], of the first of the replies the AI
    Brain is going to give, if there is one and it has the field. *)
Definition brain_text (replies : list brain_reply) : option string :=
  match head replies with
  | Some (Json fields) => fields !! "text"
  | _ => None
  end.

Definition brain_audio (replies : list brain_reply) : option string :=
  match head replies with
  | Some (Json fields) => fields !! "audio_data"
  | _ => None
  end.

(** A segment of templated text without audio: its text is the template of
    a personality of the bucket of hour [h], for the metadata of its upload,
    and its audio reference is null. *)
Definition templated_segment (d : DB) (h : Z) (s : Segment) : Prop :=
  dj_intro_audio s = None ∧
  ∃ upload user p t,
    uploads d !! segment_upload_id s = Some upload ∧
    users d !! user_id upload = Some user ∧
    p ∈ personality_bucket h ∧
    generate_fallback_intro (metadata_dict upload user) p !! "text" = Some t ∧
    t ≠ "" ∧
    dj_intro_text s = Some t.

(** None of the replies the AI Brain is going to give carries audio. *)
Definition no_audio (replies : list brain_reply) : Prop :=
  Forall (λ r, match r with
               | Json fields => fields !! "audio_data" = None
               | NoReply => True
               end) replies.

(** A segment that kept its text although there is no audio. *)
Definition text_only_segment (s : Segment) : Prop :=
  dj_intro_audio s = None ∧ is_Some (dj_intro_text s).



(** ** Sample data *)

(** A library of [n] approved uploads of one media type, ids [first .. first + n - 1],
    all owned by user 1. *)
Definition library (first n : nat) (mt : string) : list (nat * Upload) :=
  (λ i, (i, mkUpload 1 ("Track " +:+ pretty i) None mt None
                     (Some ("/media/" +:+ pretty i)) (Some 180) "approved" 1000))
    <$> seq first n.

Definition sample_db (audio video : nat) : DB :=
  mkDB {[ 1%nat := mkUser "alice" ]}
       (list_to_map (library 1 audio "audio" ++ library (S audio) video "video"))
       [] ∅ [].

Definition sample_world (d : DB) (files : gmap string string)
    (g : list nat) (replies : list brain_reply) : World :=
  mkWorld d d files g 1762164000 replies [] [].

(** A database with an older, inactive playlist 1 of uploads 1 and 2, next
    to [audio] audio and [video] video uploads. *)
Definition published_db (audio video : nat) : DB :=
  mkDB (users (sample_db audio video)) (uploads (sample_db audio video)) []
       {[ 1%nat := mkPlaylist "Daily Mix - 2025-10-01" "" false 1759312800 ]}
       [mkPlaylistEntry 1 1 0; mkPlaylistEntry 1 2 1].

(** Two playlists, the first one active, over three uploads; upload 2 has
    no media file on disk. *)
Definition radio_db : DB :=
  mkDB {[ 1%nat := mkUser "alice" ]}
       {[ 1%nat := mkUpload 1 "Song A" None "audio" None (Some "/m/a.mp3")
                            (Some 180) "approved" 1000;
          2%nat := mkUpload 1 "Song B" None "audio" None (Some "/m/b.mp3")
                            None "approved" 1000;
          3%nat := mkUpload 1 "Clip C" None "video" None (Some "/m/c.mp4")
                            (Some 0) "approved" 1000 ]}
       [mkSegment 1 3 (Some "Next up, Clip C") (Some "/m/intro_3.mp3") (Some 0)]
       {[ 1%nat := mkPlaylist "Monday" "" true 1761000000;
          2%nat := mkPlaylist "Tuesday" "" false 1762000000 ]}
       [mkPlaylistEntry 1 1 0; mkPlaylistEntry 2 3 1; mkPlaylistEntry 2 1 0;
        mkPlaylistEntry 2 2 2].

Definition radio_files : gmap string string :=
  {[ "/m/a.mp3" := "a"; "/m/c.mp4" := "c"; "/m/intro_3.mp3" := "i" ]}.

Definition radio_world : World := sample_world radio_db radio_files [] [].


(** ** The daily run *)

(** Referential integrity of [Upload.user_id] (its foreign key). *)
Definition users_ok (d : DB) : Prop :=
  map_Forall (λ _ u, is_Some (users d !! user_id u)) (uploads d).

#[global] Instance users_ok_dec (d : DB) : Decision (users_ok d).
Proof. unfold users_ok. apply _. Defined.

(** The row [create_daily_playlist] adds. *)
Definition daily_playlist (date : option datetime) (w : World) : Playlist :=
  mkPlaylist ("Daily Mix - " +:+ strftime_Y_m_d (default (now w) date))
             ("AI-curated daily playlist for " +:+
              strftime_B_d_Y (default (now w) date))
             false (now w).


(** ** Playback and recommendations *)

(** A history of calls of [update_now_playing]: time, upload, segment. *)
Definition replay (d : DB) (calls : list (datetime * nat * option nat))
    (p : Playback) : Playback :=
  foldl (λ p c, update_now_playing d c.1.1 c.1.2 c.2 p) p calls.

(** The base query of [generate_content_recommendations]: the approved
    uploads not played in the last 24 hours. *)
Definition recommendation_query (p : Playback) (w : World) : list (nat * Upload) :=
  filter (λ r, status r.2 = "approved" ∧
               not_recently_played p (now w - 24 * 3600) r)
         (map_to_list (uploads (db w))).

(** ** More sample data *)

(** [radio_db] after upload 3 was deleted: the entry of playlist 2 for it
    dangles. *)
Definition stale_db : DB :=
  mkDB (users radio_db) (delete 3%nat (uploads radio_db)) (segments radio_db)
       (playlists radio_db) (entries radio_db).

Definition stale_world : World := sample_world stale_db radio_files [] [].

(** A play history over [radio_db]: upload 1 was never played, upload 2 was
    played 3 times, the last time two days before the time of
    [sample_world], and upload 3 was played 9 times. *)
Definition radio_playback : Playback :=
  mkPlayback [] {[ 2%nat := mkPlayColumns 3 (Some 1762000000) None;
                   3%nat := mkPlayColumns 9 None None ]}.

(** * Properties *)

(** ** Running the monad *)

Lemma run_bind {A B} (m : M A) (k : A → M B) (w : World) :
  (m ≫= k) w = match m w with
               | (Returned a, w') => k a w'
               | (Raised e, w') => (Raised e, w')
               end.
Proof. reflexivity. Qed.

Lemma run_bind_returned {A B} (m : M A) (k : A → M B) (w w' : World) (a : A) :
  m w = (Returned a, w') → (m ≫= k) w = k a w'.
Proof. intros E. rewrite run_bind, E. reflexivity. Qed.

Lemma run_bind_raised {A B} (m : M A) (k : A → M B) (w w' : World) (e : exn) :
  m w = (Raised e, w') → (m ≫= k) w = (Raised e, w').
Proof. intros E. rewrite run_bind, E. reflexivity. Qed.

Lemma run_get_world {B} (k : World → M B) (w : World) :
  (get_world ≫= k) w = k w w.
Proof. reflexivity. Qed.

Lemma run_modify {B} (f : World → World) (k : unit → M B) (w : World) :
  (modify f ≫= k) w = k tt (f w).
Proof. reflexivity. Qed.

Lemma run_ret {A B} (a : A) (k : A → M B) (w : World) :
  (ret a ≫= k) w = k a w.
Proof. reflexivity. Qed.

Lemma set_rng_id (w : World) : set_rng (rng w) w = w.
Proof. destruct w; reflexivity. Qed.

(** ** Drawing without replacement *)

Lemma randbelow_run (n : nat) (w : World) :
  (0 < n)%nat →
  ∃ j g, randbelow n w = (Returned j, set_rng g w) ∧ (j < n)%nat.
Proof.
  intros Hn. unfold randbelow. destruct (rng w) as [|r g] eqn:E.
  - exists 0%nat, (rng w). rewrite set_rng_id. split; [reflexivity | lia].
  - exists (r `mod` n)%nat, g. split; [reflexivity |].
    apply Nat.mod_upper_bound. lia.
Qed.

Lemma draw_run {A} (k : nat) : ∀ (pool : list A) (w : World),
  (k ≤ length pool)%nat →
  ∃ picks rest g,
    draw pool k w = (Returned picks, set_rng g w) ∧
    length picks = k ∧ picks ++ rest ≡ₚ pool.
Proof.
  induction k as [|k IH]; intros pool w Hk.
  - exists [], pool, (rng w). rewrite set_rng_id. auto.
  - destruct (randbelow_run (length pool) w) as (j & g & Ej & Hj); [lia |].
    destruct (lookup_lt_is_Some_2 pool j Hj) as [x Ex].
    destruct (IH (delete j pool) (set_rng g w)) as (picks & rest & g' & Ed & Hl & Hp).
    { rewrite length_delete by eauto. lia. }
    exists (x :: picks), rest, g'. split; [| split].
    + cbn [draw]. rewrite (run_bind_returned _ _ _ _ _ Ej), Ex.
      rewrite (run_bind_returned _ _ _ _ _ Ed). reflexivity.
    + simpl. lia.
    + simpl. rewrite Hp. symmetry. by apply delete_Permutation.
Qed.

Lemma random_sample_run {A} (population : list A) (k : nat) (w : World) :
  (k ≤ length population)%nat →
  ∃ picks rest g,
    random_sample population k w = (Returned picks, set_rng g w) ∧
    length picks = k ∧ picks ++ rest ≡ₚ population.
Proof.
  intros Hk. unfold random_sample. rewrite decide_True by done.
  by apply draw_run.
Qed.

Lemma random_shuffle_run {A} (x : list A) (w : World) :
  ∃ y g, random_shuffle x w = (Returned y, set_rng g w) ∧ y ≡ₚ x.
Proof.
  destruct (draw_run (length x) x w) as (y & rest & g & E & Hl & Hp); [lia |].
  exists y, g. split; [exact E |].
  assert (rest = []) as ->.
  { apply Permutation_length in Hp. rewrite length_app in Hp.
    destruct rest; [done | simpl in Hp; lia]. }
  by rewrite app_nil_r in Hp.
Qed.

(** ** Building the daily playlist *)

Lemma Upload_query_filter_by_run (st mt : string) (w : World) :
  Upload_query_filter_by st mt w = (Returned (uploads_filter_by (db w) st mt), w).
Proof. reflexivity. Qed.

Lemma db_session_add_playlist_run (p : Playlist) (w : World) :
  db_session_add_playlist p w =
  (Returned (next_id ((map_to_list (playlists (db w))).*1)),
   set_db (λ d, mkDB (users d) (uploads d) (segments d)
                     (<[next_id ((map_to_list (playlists (db w))).*1) := p]>
                        (playlists d))
                     (entries d)) w).
Proof. reflexivity. Qed.

Lemma pick_run (pool : list (nat * Upload)) (slots : nat) (w : World) :
  ∃ picks rest g,
    (match pool with
     | [] => ret []
     | _ => random_sample pool (slots `min` length pool)
     end) w = (Returned picks, set_rng g w) ∧
    length picks = (slots `min` length pool)%nat ∧ picks ++ rest ≡ₚ pool.
Proof.
  destruct pool as [|u pool].
  - exists [], [], (rng w). rewrite set_rng_id. simpl.
    split; [reflexivity | split; [lia | done]].
  - apply random_sample_run. lia.
Qed.

Lemma add_entries_run (id : nat) (l : list (nat * (nat * Upload))) (w : World) :
  for_each l (λ pu, db_session_add_entry
                      (mkPlaylistEntry id (pu.2).1 (Z.of_nat pu.1))) w =
  (Returned tt,
   set_db (λ d, mkDB (users d) (uploads d) (segments d) (playlists d)
                     (entries d ++
                        ((λ pu, mkPlaylistEntry id (pu.2).1 (Z.of_nat pu.1)) <$> l)))
          w).
Proof.
  revert w. induction l as [|pu l IH]; intros w.
  - simpl. unfold ret, set_db. rewrite app_nil_r. by destruct w as [[]].
  - cbn [for_each]. unfold db_session_add_entry. rewrite run_modify, IH.
    unfold set_db. cbn. by rewrite <- app_assoc.
Qed.

Lemma create_daily_playlist_run (date : option datetime) (w : World) :
  let audio := uploads_filter_by (db w) "approved" "audio" in
  let video := uploads_filter_by (db w) "approved" "video" in
  let id := next_id ((map_to_list (playlists (db w))).*1) in
  if bool_decide (audio = [] ∧ video = [])
  then create_daily_playlist date w = (Returned None, w)
  else ∃ audio_picks audio_rest video_picks video_rest selected g p,
      length audio_picks = (audio_slots `min` length audio)%nat ∧
      audio_picks ++ audio_rest ≡ₚ audio ∧
      length video_picks = (video_slots `min` length video)%nat ∧
      video_picks ++ video_rest ≡ₚ video ∧
      selected ≡ₚ audio_picks ++ video_picks ∧
      is_active p = false ∧
      let d' := mkDB (users (db w)) (uploads (db w)) (segments (db w))
                     (<[id := p]> (playlists (db w)))
                     (entries (db w) ++ entries_for id selected) in
      create_daily_playlist date w =
      (Returned (Some id),
       mkWorld d' d' (fs w) g (now w) (brain w) (brain_log w)
               (observed w ++ [(d', fs w)])).
Proof.
  intros audio video id. unfold create_daily_playlist.
  rewrite run_get_world. cbn zeta.
  rewrite !(run_bind_returned _ _ _ _ _ (Upload_query_filter_by_run _ _ _)).
  fold audio video.
  destruct (bool_decide (audio = [] ∧ video = [])); [reflexivity |].
  match goal with |- context [mkPlaylist ?a ?b false ?c] =>
    set (p := mkPlaylist a b false c) end.
  rewrite (run_bind_returned _ _ _ _ _ (db_session_add_playlist_run p w)).
  fold id.
  match goal with |- context [set_db ?f w] => set (w1 := set_db f w) end.
  destruct (pick_run audio audio_slots w1) as (ap & ar & g1 & Ea & Hla & Hpa).
  destruct (pick_run video video_slots (set_rng g1 w1))
    as (vp & vr & g2 & Ev & Hlv & Hpv).
  destruct (random_shuffle_run (ap ++ vp) (set_rng g2 (set_rng g1 w1)))
    as (sel & g3 & Es & Hps).
  exists ap, ar, vp, vr, sel, g3, p.
  repeat (split; [done |]).
  cbn zeta.
  rewrite (run_bind_returned _ _ _ _ _ Ea).
  rewrite (run_bind_returned _ _ _ _ _ Ev).
  rewrite (run_bind_returned _ _ _ _ _ Es).
  rewrite run_bind, add_entries_run.
  unfold db_session_commit. rewrite run_modify. unfold ret.
  unfold entries_for. rewrite fmap_imap.
  reflexivity.
Qed.

Lemma next_id_fresh {A} (m : gmap nat A) :
  m !! next_id ((map_to_list m).*1) = None.
Proof.
  destruct (m !! next_id ((map_to_list m).*1)) as [a|] eqn:E; [| done].
  apply elem_of_map_to_list in E.
  assert (next_id ((map_to_list m).*1) ∈ (map_to_list m).*1) as Hin.
  { apply list_elem_of_fmap. by exists (next_id ((map_to_list m).*1), a). }
  apply max_list_elem_of_le in Hin. unfold next_id in Hin. lia.
Qed.

Section filter_facts.
Context {A : Type} (P : A → Prop) `{!∀ x, Decision (P x)}.

Lemma filter_all (l : list A) : Forall P l → filter P l = l.
Proof.
  induction 1 as [|x l Hx _ IH]; [done |].
  by rewrite filter_cons_True, IH.
Qed.

Lemma filter_none (l : list A) : Forall (λ x, ¬ P x) l → filter P l = [].
Proof.
  induction 1 as [|x l Hx _ IH]; [done |].
  by rewrite filter_cons_False.
Qed.
End filter_facts.

Lemma entries_for_playlist_id (id : nat) (selected : list (nat * Upload)) :
  Forall (λ e, playlist_id e = id) (entries_for id selected).
Proof.
  unfold entries_for. apply Forall_forall. intros e He.
  apply list_elem_of_lookup in He as [i Hi].
  rewrite list_lookup_imap in Hi.
  destruct (selected !! i); simplify_eq/=. done.
Qed.

Lemma playlist_entries_new (d : DB) (id : nat) (p : Playlist)
    (selected : list (nat * Upload)) :
  entries_ok d → playlists d !! id = None →
  playlist_entries
    (mkDB (users d) (uploads d) (segments d) (<[id := p]> (playlists d))
          (entries d ++ entries_for id selected)) id
  = entries_for id selected.
Proof.
  intros Hok Hid. unfold playlist_entries. cbn [entries].
  rewrite filter_app.
  replace (filter (λ e, playlist_id e = id) (entries d)) with (@nil PlaylistEntry).
  - simpl. apply filter_all, entries_for_playlist_id.
  - symmetry. apply filter_none. unfold entries_ok in Hok.
    eapply Forall_impl; [exact Hok |]. intros e [q Hq] He. congruence.
Qed.

Lemma entries_for_positions (id : nat) (selected : list (nat * Upload)) :
  position <$> entries_for id selected = Z.of_nat <$> seq 0 (length selected).
Proof.
  unfold entries_for. apply list_eq. intros i.
  rewrite !list_lookup_fmap, list_lookup_imap.
  destruct (selected !! i) as [u|] eqn:E; simpl.
  - rewrite lookup_seq_lt by (eapply lookup_lt_Some; eauto). done.
  - rewrite lookup_seq_ge by (by apply lookup_ge_None). done.
Qed.

Lemma entries_for_upload_ids (id : nat) (selected : list (nat * Upload)) :
  upload_id <$> entries_for id selected = selected.*1.
Proof.
  unfold entries_for. apply list_eq. intros i.
  rewrite !list_lookup_fmap, list_lookup_imap.
  by destruct (selected !! i).
Qed.

Lemma entries_for_length (id : nat) (selected : list (nat * Upload)) :
  length (entries_for id selected) = length selected.
Proof. unfold entries_for. by rewrite length_imap. Qed.

Lemma uploads_filter_by_elem (d : DB) (st mt : string) (r : nat * Upload) :
  r ∈ uploads_filter_by d st mt ↔
  uploads d !! r.1 = Some r.2 ∧ status r.2 = st ∧ media_type r.2 = mt.
Proof.
  unfold uploads_filter_by. rewrite list_elem_of_filter.
  destruct r as [i u]. rewrite elem_of_map_to_list. simpl. tauto.
Qed.

Lemma uploads_filter_by_NoDup (d : DB) (st mt : string) :
  NoDup (uploads_filter_by d st mt).*1.
Proof.
  unfold uploads_filter_by.
  eapply sublist_NoDup; [apply (NoDup_fst_map_to_list (uploads d)) |].
  apply fmap_sublist, sublist_filter.
Qed.


Lemma picks_in_pool {A} (picks rest pool : list A) (x : A) :
  picks ++ rest ≡ₚ pool → x ∈ picks → x ∈ pool.
Proof. intros Hp Hx. rewrite <- Hp. apply elem_of_app. by left. Qed.

Lemma both_empty_dec (w : World) :
  bool_decide (uploads_filter_by (db w) "approved" "audio" = [] ∧
               uploads_filter_by (db w) "approved" "video" = []) = false →
  ¬ (uploads_filter_by (db w) "approved" "audio" = [] ∧
     uploads_filter_by (db w) "approved" "video" = []).
Proof. intros E. by apply bool_decide_eq_false in E. Qed.

(** C7. [create_daily_playlist] reports that there is no content (it returns
    [None], and leaves the world as it was) exactly when the approved audio
    pool and the approved video pool are both empty; otherwise it returns a
    new playlist, which is in the committed database afterwards.  It never
    raises. *)
Theorem create_daily_playlist_no_content_iff (date : option datetime) (w : World) :
  ∃ r w',
    create_daily_playlist date w = (Returned r, w') ∧
    (r = None ↔ uploads_filter_by (db w) "approved" "audio" = [] ∧
                uploads_filter_by (db w) "approved" "video" = []) ∧
    (r = None → w' = w) ∧
    (∀ id, r = Some id →
       playlists (db w) !! id = None ∧
       is_Some (playlists (committed w') !! id)).
Proof.
  pose proof (create_daily_playlist_run date w) as H. cbn zeta in H.
  destruct (bool_decide _) eqn:E.
  - apply bool_decide_eq_true in E.
    exists None, w. repeat split; try done; apply E.
  - apply both_empty_dec in E.
    destruct H as (ap & ar & vp & vr & sel & g & p & _ & _ & _ & _ & _ & _ & H).
    eexists _, _. split; [exact H |]. split; [| split].
    + split; [done | intros HE; by apply E in HE].
    + done.
    + intros id [= <-]. split; [apply next_id_fresh |].
      cbn. rewrite lookup_insert_eq. eauto.
Qed.

(** C5. When there is at least one approved audio or video upload (and
    every existing entry belongs to an existing playlist),
    [create_daily_playlist] returns a playlist whose entries carry the
    positions 0, 1, ..., n-1 in this order, without gap or repetition, and the
    playlist row is committed with [is_active = False]. *)
Theorem create_daily_playlist_positions (date : option datetime) (w : World) :
  entries_ok (db w) →
  (∃ i u, uploads (db w) !! i = Some u ∧ status u = "approved" ∧
          (media_type u = "audio" ∨ media_type u = "video")) →
  ∃ id w' p,
    create_daily_playlist date w = (Returned (Some id), w') ∧
    position <$> playlist_entries (db w') id =
      Z.of_nat <$> seq 0 (length (playlist_entries (db w') id)) ∧
    playlists (committed w') !! id = Some p ∧ is_active p = false.
Proof.
  intros Hok (i & u & Hu & Hst & Hmt).
  pose proof (create_daily_playlist_run date w) as H. cbn zeta in H.
  destruct (bool_decide _) eqn:E.
  - apply bool_decide_eq_true in E. destruct E as [Ea Ev]. exfalso.
    destruct Hmt as [Hmt|Hmt].
    + assert ((i, u) ∈ uploads_filter_by (db w) "approved" "audio") as Hin
        by (by apply uploads_filter_by_elem).
      rewrite Ea in Hin. by apply elem_of_nil in Hin.
    + assert ((i, u) ∈ uploads_filter_by (db w) "approved" "video") as Hin
        by (by apply uploads_filter_by_elem).
      rewrite Ev in Hin. by apply elem_of_nil in Hin.
  - destruct H as (ap & ar & vp & vr & sel & g & p & _ & _ & _ & _ & _ & Hp & H).
    eexists _, _, p. split; [exact H |]. cbn [db committed].
    rewrite playlist_entries_new by (done || apply next_id_fresh).
    rewrite entries_for_positions, entries_for_length.
    split; [done |]. split; [| done]. cbn. apply lookup_insert_eq.
Qed.

Lemma create_daily_playlist_positions_witness :
  ∃ id w' p,
    create_daily_playlist None (sample_world (published_db 2 1) ∅ [4; 2]%nat [])
      = (Returned (Some id), w') ∧
    position <$> playlist_entries (db w') id =
      Z.of_nat <$> seq 0 (length (playlist_entries (db w') id)) ∧
    playlists (committed w') !! id = Some p ∧ is_active p = false.
Proof.
  apply (create_daily_playlist_positions None
           (sample_world (published_db 2 1) ∅ [4; 2]%nat [])).
  - apply (bool_decide_unpack _). vm_compute. exact I.
  - eexists 1%nat, _. split; [vm_compute; reflexivity |].
    split; [reflexivity | left; reflexivity].
Defined.



(** C10. A playlist made by [create_daily_playlist] references every upload
    at most once: the upload ids of its entries are pairwise different. *)
Theorem create_daily_playlist_distinct_uploads (date : option datetime) (w : World) :
  entries_ok (db w) →
  ∃ r w',
    create_daily_playlist date w = (Returned r, w') ∧
    ∀ id, r = Some id →
      NoDup (upload_id <$> playlist_entries (db w') id) ∧
      ∀ i j e1 e2,
        playlist_entries (db w') id !! i = Some e1 →
        playlist_entries (db w') id !! j = Some e2 →
        i ≠ j → upload_id e1 ≠ upload_id e2.
Proof.
  intros Hok.
  pose proof (create_daily_playlist_run date w) as H. cbn zeta in H.
  destruct (bool_decide _) eqn:E.
  { exists None, w. split; [exact H | done]. }
  clear E.
  destruct H as (ap & ar & vp & vr & sel & g & p & _ & Hpa & _ & Hpv & Hs & _ & H).
  eexists _, _. split; [exact H |]. intros id [= <-]. cbn [db].
  rewrite playlist_entries_new by (done || apply next_id_fresh).
  assert (NoDup (upload_id <$> entries_for (next_id (map_to_list (playlists (db w))).*1) sel))
    as Hnd.
  { rewrite entries_for_upload_ids, Hs, fmap_app. apply NoDup_app.
    assert (NoDup (ap ++ ar).*1) as Ha
      by (rewrite Hpa; apply uploads_filter_by_NoDup).
    assert (NoDup (vp ++ vr).*1) as Hv
      by (rewrite Hpv; apply uploads_filter_by_NoDup).
    rewrite fmap_app in Ha, Hv. apply NoDup_app in Ha as (Ha & _ & _).
    apply NoDup_app in Hv as (Hv & _ & _).
    split; [done |]. split; [| done].
    intros i Hia Hiv.
    apply list_elem_of_fmap in Hia as ([i1 u1] & -> & Hu1).
    apply list_elem_of_fmap in Hiv as ([i2 u2] & Heq & Hu2). cbn in Heq. subst i2.
    eapply picks_in_pool in Hu1; [| exact Hpa].
    eapply picks_in_pool in Hu2; [| exact Hpv].
    apply uploads_filter_by_elem in Hu1 as (Hl1 & _ & Hm1).
    apply uploads_filter_by_elem in Hu2 as (Hl2 & _ & Hm2).
    cbn in *. congruence. }
  split; [exact Hnd |].
  intros i j e1 e2 H1 H2 Hij Heq. apply Hij.
  eapply (NoDup_lookup _ i j (upload_id e1)); [exact Hnd | |].
  - by rewrite list_lookup_fmap, H1.
  - rewrite list_lookup_fmap, H2. cbn. congruence.
Qed.

Lemma create_daily_playlist_distinct_uploads_witness :
  ∃ r w',
    create_daily_playlist None (sample_world (published_db 3 2) ∅ [9; 1; 6; 2]%nat [])
      = (Returned r, w') ∧
    ∀ id, r = Some id →
      NoDup (upload_id <$> playlist_entries (db w') id) ∧
      ∀ i j e1 e2,
        playlist_entries (db w') id !! i = Some e1 →
        playlist_entries (db w') id !! j = Some e2 →
        i ≠ j → upload_id e1 ≠ upload_id e2.
Proof.
  apply (create_daily_playlist_distinct_uploads None
           (sample_world (published_db 3 2) ∅ [9; 1; 6; 2]%nat [])).
  apply (bool_decide_unpack _). vm_compute. exact I.
Defined.

(** ** Strings and lines *)

Lemma string_app_assoc (a b c : string) : (a +:+ b) +:+ c = a +:+ b +:+ c.
Proof.
  induction a as [|x a IH]; [done |].
  change (String x ((a +:+ b) +:+ c) = String x (a +:+ b +:+ c)).
  by rewrite IH.
Qed.

Lemma string_app_nil_r (a : string) : a +:+ "" = a.
Proof.
  induction a as [|x a IH]; [done |].
  change (String x (a +:+ "") = String x a). by rewrite IH.
Qed.

Lemma unlines_app (l1 l2 : list string) :
  unlines (l1 ++ l2) = unlines l1 +:+ unlines l2.
Proof.
  induction l1 as [|x l1 IH]; [done |].
  cbn [unlines foldr app]. fold (unlines (l1 ++ l2)). fold (unlines l1).
  by rewrite IH, !string_app_assoc.
Qed.

(** ** The stable sort by position *)

Lemma insert_by_position_Permutation (e : PlaylistEntry) (l : list PlaylistEntry) :
  insert_by_position e l ≡ₚ e :: l.
Proof.
  induction l as [|x l IH]; [done |]. cbn.
  case_bool_decide; [done |]. by rewrite IH, Permutation_swap.
Qed.



Lemma sorted_by_position_Permutation (l : list PlaylistEntry) :
  sorted_by_position l ≡ₚ l.
Proof.
  induction l as [|x l IH]; [done |]. cbn.
  by rewrite insert_by_position_Permutation, IH.
Qed.


(** ** Frames: what a file write leaves alone *)

Lemma frame_refl (w : World) : frame w w.
Proof.
  unfold frame. repeat (split; [done |]).
  exists []. by rewrite app_nil_r.
Qed.

Lemma frame_trans (w1 w2 w3 : World) : frame w1 w2 → frame w2 w3 → frame w1 w3.
Proof.
  intros (Hd & Hc & Hr & Hn & Hb & Hl & s1 & Ho1 & Hs1)
         (Hd' & Hc' & Hr' & Hn' & Hb' & Hl' & s2 & Ho2 & Hs2).
  unfold frame. repeat (split; [congruence |]).
  exists (s1 ++ s2). split.
  - by rewrite Ho2, Ho1, app_assoc.
  - apply Forall_app. split; [done |]. by rewrite <- Hc.
Qed.

Lemma frame_set_fs (f : gmap string string → gmap string string) (w : World) :
  frame w (set_fs f w).
Proof.
  unfold frame, set_fs. cbn. repeat (split; [done |]).
  eexists. split; [done |]. by repeat constructor.
Qed.

Lemma f_write_run (path data : string) (w : World) :
  f_write path data w =
  (Returned tt, set_fs (λ f, <[path := default "" (f !! path) +:+ data]> f) w).
Proof. reflexivity. Qed.

Lemma os_path_exists_run (path : string) (w : World) :
  os_path_exists path w = (Returned (bool_decide (path ∈ dom (fs w))), w).
Proof. reflexivity. Qed.

Lemma write_two_lines (m3u c l1 l2 : string) (w : World) :
  fs w !! m3u = Some c →
  ∃ w', (f_write m3u (l1 +:+ LF) ;; f_write m3u (l2 +:+ LF)) w = (Returned tt, w') ∧
        frame w w' ∧
        fs w' = <[m3u := c +:+ unlines [l1; l2]]> (fs w).
Proof.
  intros Hc. eexists. split; [| split].
  - rewrite (run_bind_returned _ _ _ _ _ (f_write_run _ _ _)).
    apply f_write_run.
  - eapply frame_trans; apply frame_set_fs.
  - cbn [fs set_fs unlines foldr]. rewrite Hc, lookup_insert_eq, insert_insert_eq.
    cbv [default from_option id]. by rewrite !string_app_assoc, string_app_nil_r.
Qed.

Lemma write_nothing (m3u c : string) (w : World) :
  fs w !! m3u = Some c →
  frame w w ∧ fs w = <[m3u := c +:+ unlines []]> (fs w).
Proof.
  intros Hc. split; [apply frame_refl |].
  cbn. by rewrite string_app_nil_r, insert_id.
Qed.

(** ** The export file *)

Lemma write_dj_intro_run (m3u c : string) (e : PlaylistEntry) (u : Upload) (w : World) :
  fs w !! m3u = Some c →
  ∃ w', write_dj_intro m3u e u w = (Returned tt, w') ∧ frame w w' ∧
        fs w' = <[m3u := c +:+ unlines (narration_lines (db w) (dom (fs w)) e u)]> (fs w).
Proof.
  intros Hc. unfold write_dj_intro, narration_lines. rewrite run_get_world.
  cbn zeta. destruct (Segment_first (db w) (upload_id e) ≫= dj_intro_audio) as [audio|].
  - rewrite (run_bind_returned _ _ _ _ _ (os_path_exists_run _ _)).
    destruct (bool_decide (audio ≠ "") && bool_decide (audio ∈ dom (fs w))).
    + by apply write_two_lines.
    + exists w. split; [done |]. by apply write_nothing.
  - exists w. split; [done |]. by apply write_nothing.
Qed.

Lemma write_main_content_run (m3u c : string) (u : Upload) (w : World) :
  fs w !! m3u = Some c →
  ∃ r w' c',
    write_main_content m3u u w = (r, w') ∧ frame w w' ∧
    fs w' = <[m3u := c']> (fs w) ∧
    (is_Some (users (db w) !! user_id u) →
     r = Returned tt ∧ c' = c +:+ unlines (content_lines (db w) (dom (fs w)) u)).
Proof.
  intros Hc. unfold write_main_content, content_lines.
  destruct (filename u) as [file|].
  2:{ exists (Returned tt), w, (c +:+ unlines []).
      split; [done |]. destruct (write_nothing m3u c w Hc) as [Hf Hfs].
      split; [exact Hf |]. split; [exact Hfs |].
      by destruct (users (db w) !! user_id u). }
  rewrite (run_bind_returned _ _ _ _ _ (os_path_exists_run _ _)).
  destruct (bool_decide (file ≠ "") && bool_decide (file ∈ dom (fs w))).
  2:{ exists (Returned tt), w, (c +:+ unlines []).
      split; [done |]. destruct (write_nothing m3u c w Hc) as [Hf Hfs].
      split; [exact Hf |]. split; [exact Hfs |].
      by destruct (users (db w) !! user_id u). }
  rewrite run_get_world.
  destruct (users (db w) !! user_id u) as [user|].
  - cbn [attr]. rewrite run_ret.
    edestruct write_two_lines as (w' & Hrun & Hf & Hfs); [exact Hc |].
    eexists _, w', _. split; [exact Hrun |]. split; [done |]. split; [exact Hfs |].
    done.
  - eexists (Raised (AttributeError _)), w, c.
    split; [done |]. split; [apply frame_refl |].
    split; [by rewrite insert_id |]. by intros [? ?].
Qed.

Lemma dom_insert_existing (f : gmap string string) (path c c' : string) :
  f !! path = Some c → dom (<[path := c']> f) = dom f.
Proof. intros H. apply dom_insert_lookup_L. eauto. Qed.

Lemma export_entry_run (m3u c : string) (e : PlaylistEntry) (w : World) :
  fs w !! m3u = Some c →
  ∃ r w' c',
    export_entry m3u e w = (r, w') ∧
    frame w w' ∧ fs w' = <[m3u := c']> (fs w) ∧
    (entry_ok (db w) e →
     r = Returned tt ∧ c' = c +:+ unlines (entry_lines (db w) (dom (fs w)) e)).
Proof.
  intros Hc. unfold export_entry. rewrite run_get_world.
  unfold entry_ok, entry_lines.
  destruct (uploads (db w) !! upload_id e) as [u|].
  2:{ eexists (Raised (AttributeError _)), w, c. split; [done |].
      split; [apply frame_refl |]. split; [by rewrite insert_id | done]. }
  cbn [attr]. rewrite run_ret.
  destruct (write_dj_intro_run m3u c e u w Hc) as (w1 & E1 & F1 & Hfs1).
  rewrite (run_bind_returned _ _ _ _ _ E1).
  destruct (write_main_content_run m3u
              (c +:+ unlines (narration_lines (db w) (dom (fs w)) e u)) u w1)
    as (r & w2 & c2 & E2 & F2 & Hfs2 & Hok).
  { rewrite Hfs1. apply lookup_insert_eq. }
  exists r, w2, c2. split; [exact E2 |]. split; [by eapply frame_trans |].
  split; [by rewrite Hfs2, Hfs1, insert_insert_eq |].
  intros Hu. destruct F1 as (Hd1 & _).
  rewrite Hd1 in Hok. destruct (Hok Hu) as [-> ->]. split; [done |].
  rewrite Hfs1, (dom_insert_existing _ _ _ _ Hc).
  by rewrite unlines_app, string_app_assoc.
Qed.

Lemma export_loop_run (m3u : string) (l : list PlaylistEntry) :
  ∀ (c : string) (w : World),
    fs w !! m3u = Some c →
    ∃ r w' c',
      for_each l (export_entry m3u) w = (r, w') ∧
      frame w w' ∧ fs w' = <[m3u := c']> (fs w) ∧
      (Forall (entry_ok (db w)) l →
       r = Returned tt ∧ c' = c +:+ unlines (l ≫= entry_lines (db w) (dom (fs w)))).
Proof.
  induction l as [|e l IH]; intros c w Hc.
  - exists (Returned tt), w, c. split; [done |]. split; [apply frame_refl |].
    split; [by rewrite insert_id |]. intros _. cbn. by rewrite string_app_nil_r.
  - cbn [for_each].
    destruct (export_entry_run m3u c e w Hc) as (r1 & w1 & c1 & E1 & F1 & Hfs1 & Hok1).
    destruct r1 as [[]|ex].
    2:{ exists (Raised ex), w1, c1. rewrite (run_bind_raised _ _ _ _ _ E1).
        split; [done |]. split; [done |]. split; [done |].
        intros Hall. apply Forall_cons in Hall as [He _].
        by destruct (Hok1 He). }
    rewrite (run_bind_returned _ _ _ _ _ E1).
    destruct (IH c1 w1) as (r & w2 & c2 & E2 & F2 & Hfs2 & Hok2).
    { rewrite Hfs1. apply lookup_insert_eq. }
    exists r, w2, c2. split; [exact E2 |]. split; [by eapply frame_trans |].
    split; [by rewrite Hfs2, Hfs1, insert_insert_eq |].
    intros Hall. apply Forall_cons in Hall as [He Hl].
    destruct (Hok1 He) as [_ ->]. destruct F1 as (Hd1 & _).
    rewrite Hd1, Hfs1, (dom_insert_existing _ _ _ _ Hc) in Hok2.
    destruct (Hok2 Hl) as [-> ->]. split; [done |].
    cbn [mbind list_bind]. by rewrite unlines_app, string_app_assoc.
Qed.

Lemma export_playlist_to_m3u_missing (id : nat) (w : World) :
  playlists (db w) !! id = None →
  export_playlist_to_m3u id w = (Returned None, w).
Proof. intros H. unfold export_playlist_to_m3u. by rewrite run_get_world, H. Qed.

Lemma export_playlist_to_m3u_run (id : nat) (w : World) :
  is_Some (playlists (db w) !! id) →
  ∃ r w' c',
    export_playlist_to_m3u id w = (r, w') ∧
    frame w w' ∧ fs w' = <[m3u_path_of id := c']> (fs w) ∧
    (∀ x, r = Returned x → x = Some (m3u_path_of id)) ∧
    (refs_ok (db w) id →
     r = Returned (Some (m3u_path_of id)) ∧
     c' = unlines (export_lines (db w) (dom (fs w')) id)).
Proof.
  intros [p Hp]. unfold export_playlist_to_m3u. rewrite run_get_world, Hp.
  cbn zeta. unfold open_w. rewrite run_modify.
  rewrite (run_bind_returned _ _ _ _ _ (f_write_run _ _ _)).
  match goal with |- context [for_each _ _ ≫= _] =>
    match goal with |- context [(_ ≫= _) ?w0] => set (w1 := w0) end end.
  assert (frame w w1) as F01.
  { eapply frame_trans; apply frame_set_fs. }
  assert (fs w1 = <[m3u_path_of id := "#EXTM3U" +:+ LF]> (fs w)) as Hfs1.
  { subst w1. cbn [fs set_fs]. rewrite lookup_insert_eq, insert_insert_eq. done. }
  destruct (export_loop_run (m3u_path_of id)
              (sorted_by_position (playlist_entries (db w) id))
              ("#EXTM3U" +:+ LF) w1)
    as (r & w2 & c2 & E2 & F2 & Hfs2 & Hok).
  { rewrite Hfs1. apply lookup_insert_eq. }
  assert (fs w2 = <[m3u_path_of id := c2]> (fs w)) as Hfs
    by (by rewrite Hfs2, Hfs1, insert_insert_eq).
  assert (db w1 = db w) as Hd1 by apply F01.
  destruct r as [[]|ex].
  - exists (Returned (Some (m3u_path_of id))), w2, c2.
    rewrite (run_bind_returned _ _ _ _ _ E2).
    split; [done |]. split; [by eapply frame_trans |]. split; [done |].
    split; [by intros x [= <-] |].
    intros Hrefs. split; [done |].
    destruct Hok as [_ ->].
    { rewrite Hd1. unfold refs_ok in Hrefs.
      by rewrite sorted_by_position_Permutation. }
    rewrite Hd1, Hfs, Hfs1, !dom_insert_L. done.
  - exists (Raised ex), w2, c2.
    rewrite (run_bind_raised _ _ _ _ _ E2).
    split; [done |]. split; [by eapply frame_trans |]. split; [done |].
    split; [done |].
    intros Hrefs. destruct Hok as [Hr _]; [| done].
    rewrite Hd1. unfold refs_ok in Hrefs.
    by rewrite sorted_by_position_Permutation.
Qed.

(** ** Activation *)

Lemma Playlist_first_active_Some (d : DB) (current : nat) :
  Playlist_first_active d = Some current →
  ∃ p, playlists d !! current = Some p ∧ is_active p = true.
Proof.
  unfold Playlist_first_active. intros H.
  destruct (list_find _ _) as [[i [k p]]|] eqn:E; [| done].
  cbn in H. injection H as <-.
  apply list_find_Some in E as (Hi & Ha & _).
  exists p. split; [| done].
  apply elem_of_map_to_list. eapply list_elem_of_lookup_2. exact Hi.
Qed.

Lemma Playlist_first_active_None (d : DB) (j : nat) (p : Playlist) :
  Playlist_first_active d = None →
  playlists d !! j = Some p → is_active p = false.
Proof.
  unfold Playlist_first_active. intros H Hj.
  destruct (list_find _ _) as [[i [k q]]|] eqn:E; [done |].
  apply list_find_None in E. rewrite Forall_forall in E.
  apply elem_of_map_to_list in Hj. specialize (E _ Hj). cbn in E.
  by destruct (is_active p).
Qed.

Lemma set_is_active_lookup (d : DB) (i j : nat) (b : bool) :
  playlists (set_is_active i b d) !! j =
  if decide (i = j)
  then (λ p, mkPlaylist (name p) (playlist_description p) b (created_at p))
         <$> playlists d !! j
  else playlists d !! j.
Proof.
  unfold set_is_active. cbn [playlists]. rewrite lookup_alter.
  destruct (decide (i = j)); [by subst |]. done.
Qed.

Lemma deactivated_lookup_is_Some (d : DB) (j : nat) :
  is_Some (playlists (deactivated d) !! j) ↔ is_Some (playlists d !! j).
Proof.
  unfold deactivated. destruct (Playlist_first_active d) as [c|]; [| done].
  rewrite set_is_active_lookup. destruct (decide (c = j)); [| done].
  by rewrite fmap_is_Some.
Qed.

Lemma deactivated_none_active (d : DB) (j : nat) (p : Playlist) :
  at_most_one_active d →
  playlists (deactivated d) !! j = Some p → is_active p = false.
Proof.
  intros Hone. unfold deactivated.
  destruct (Playlist_first_active d) as [c|] eqn:E.
  - apply Playlist_first_active_Some in E as (pc & Hc & Hac).
    rewrite set_is_active_lookup. destruct (decide (c = j)) as [->|Hne].
    + rewrite Hc. cbn. by intros [= <-].
    + intros Hj. destruct (is_active p) eqn:Ha; [| done].
      destruct Hne. by eapply Hone.
  - by apply Playlist_first_active_None.
Qed.

Lemma activated_unique (d : DB) (id : nat) :
  at_most_one_active d → is_Some (playlists d !! id) →
  unique_active (set_is_active id true (deactivated d)) id.
Proof.
  intros Hone Hid. apply deactivated_lookup_is_Some in Hid as [p Hp]. split.
  - rewrite set_is_active_lookup, decide_True, Hp by done. cbn. eauto.
  - intros j pj. rewrite set_is_active_lookup.
    destruct (decide (id = j)) as [->|Hne]; [done |].
    intros Hj Ha. apply (deactivated_none_active d j pj Hone) in Hj. congruence.
Qed.

Lemma m3u_path_not_current (id : nat) :
  m3u_path_of id ≠ os_path_join playlist_dir "current.m3u".
Proof.
  unfold m3u_path_of, os_path_join. intros H.
  apply (inj (String.app _)) in H. apply (inj (String.app _)) in H.
  discriminate H.
Qed.

Lemma update_streaming_playlist_run (m3u_path : string) (w : World) :
  ∃ w', update_streaming_playlist m3u_path w = (Returned tt, w') ∧
        frame w w' ∧
        (∀ path, path ≠ os_path_join playlist_dir "current.m3u" →
                 fs w' !! path = fs w !! path) ∧
        (∀ c, fs w !! m3u_path = Some c →
              fs w' !! os_path_join playlist_dir "current.m3u" = Some c).
Proof.
  unfold update_streaming_playlist. rewrite run_get_world. cbn zeta.
  destruct (fs w !! m3u_path) as [c|].
  - eexists. split; [reflexivity |]. split; [apply frame_set_fs |].
    cbn [fs set_fs]. split.
    + intros path Hne. by rewrite lookup_insert_ne.
    + intros c' [= <-]. apply lookup_insert_eq.
  - exists w. split; [done |]. split; [apply frame_refl |]. done.
Qed.

Lemma same_content_activated (d : DB) (id : nat) :
  same_content (set_is_active id true (deactivated d)) d.
Proof.
  unfold deactivated. by destruct (Playlist_first_active d).
Qed.

Lemma refs_ok_ext (d d' : DB) (id : nat) :
  same_content d d' → refs_ok d id → refs_ok d' id.
Proof.
  destruct d, d'. intros (? & ? & ? & ?). cbn in *. by subst.
Qed.

Lemma export_lines_ext (d d' : DB) (files : gset string) (id : nat) :
  same_content d d' → export_lines d files id = export_lines d' files id.
Proof.
  destruct d, d'. intros (? & ? & ? & ?). cbn in *. by subst.
Qed.

Lemma m3u_path_nonempty (id : nat) : m3u_path_of id ≠ "".
Proof. unfold m3u_path_of, os_path_join, playlist_dir. discriminate. Qed.

Lemma deactivate_run (w : World) :
  (match Playlist_first_active (db w) with
   | Some current => modify (set_db (set_is_active current false))
   | None => ret tt
   end) w = (Returned tt, set_db deactivated w).
Proof.
  unfold deactivated, set_db.
  destruct (Playlist_first_active (db w)); [done |]. by destruct w.
Qed.

Lemma activate_playlist_missing (id : nat) (w : World) :
  playlists (db w) !! id = None →
  activate_playlist id w = (Returned false, set_db deactivated w).
Proof.
  intros Hid. unfold activate_playlist. rewrite run_get_world.
  rewrite (run_bind_returned _ _ _ _ _ (deactivate_run w)), run_get_world.
  cbn [db set_db].
  destruct (playlists (deactivated (db w)) !! id) eqn:E; [| done].
  assert (is_Some (playlists (db w) !! id)) as [? ?]
    by (apply deactivated_lookup_is_Some; eauto).
  congruence.
Qed.

Lemma activate_playlist_run (id : nat) (w : World) :
  is_Some (playlists (db w) !! id) →
  let d2 := set_is_active id true (deactivated (db w)) in
  ∃ r w' c snaps,
    activate_playlist id w = (r, w') ∧
    db w' = d2 ∧ committed w' = d2 ∧
    observed w' = observed w ++ (d2, fs w) :: snaps ∧
    Forall (λ s, s.1 = d2) snaps ∧
    (∀ path, path ≠ os_path_join playlist_dir "current.m3u" →
             fs w' !! path = <[m3u_path_of id := c]> (fs w) !! path) ∧
    (refs_ok (db w) id →
     r = Returned true ∧
     c = unlines (export_lines (db w) (dom (<[m3u_path_of id := c]> (fs w))) id) ∧
     fs w' !! os_path_join playlist_dir "current.m3u" = Some c).
Proof.
  intros Hid d2. unfold activate_playlist. rewrite run_get_world.
  rewrite (run_bind_returned _ _ _ _ _ (deactivate_run w)), run_get_world.
  cbn [db set_db].
  apply deactivated_lookup_is_Some in Hid as Hid'. destruct Hid' as [p Hp].
  rewrite Hp. rewrite run_modify. unfold db_session_commit. rewrite run_modify.
  cbn [set_db db committed fs rng now brain brain_log observed]. fold d2.
  match goal with |- context [(_ ≫= _) ?w0] => set (w2 := w0) end.
  destruct (export_playlist_to_m3u_run id w2) as (r & w3 & c & E & F & Hfs & Hret & Hok).
  { subst w2 d2. cbn [db]. rewrite set_is_active_lookup, decide_True, Hp by done.
    cbn. eauto. }
  destruct F as (Hd & Hc & _ & _ & _ & _ & snaps & Hobs & Hsn).
  change (fs w2) with (fs w) in Hfs. change (db w2) with d2 in Hd, Hok.
  change (committed w2) with d2 in Hc, Hsn.
  change (observed w2) with (observed w ++ [(d2, fs w)]) in Hobs.
  destruct r as [x|ex].
  - rewrite (run_bind_returned _ _ _ _ _ E), (Hret x eq_refl).
    rewrite bool_decide_eq_true_2 by apply m3u_path_nonempty.
    destruct (update_streaming_playlist_run (m3u_path_of id) w3)
      as (w4 & E4 & F4 & Hother & Hcur).
    rewrite (run_bind_returned _ _ _ _ _ E4).
    destruct F4 as (Hd4 & Hc4 & _ & _ & _ & _ & snaps4 & Hobs4 & Hsn4).
    exists (Returned true), w4, c, (snaps ++ snaps4).
    split; [done |]. split; [congruence |]. split; [congruence |].
    split; [by rewrite Hobs4, Hobs, <- !app_assoc |].
    split; [apply Forall_app; split; [done | by rewrite Hc in Hsn4] |].
    split; [intros path Hne; by rewrite Hother, Hfs |].
    intros Hrefs. split; [done |].
    destruct Hok as [_ Hcc].
    { eapply refs_ok_ext; [| exact Hrefs]. destruct (same_content_activated (db w) id) as (? & ? & ? & ?).
      by repeat split. }
    rewrite Hfs, (export_lines_ext _ _ _ _ (same_content_activated (db w) id)) in Hcc.
    split; [exact Hcc |].
    apply Hcur. rewrite Hfs. apply lookup_insert_eq.
  - rewrite (run_bind_raised _ _ _ _ _ E).
    exists (Raised ex), w3, c, snaps.
    split; [done |]. split; [done |]. split; [done |].
    split; [by rewrite Hobs, <- app_assoc |]. split; [done |].
    split; [intros path _; by rewrite Hfs |].
    intros Hrefs. destruct Hok as [Hr _]; [| done].
    eapply refs_ok_ext; [| exact Hrefs]. destruct (same_content_activated (db w) id) as (? & ? & ? & ?).
      by repeat split.
Qed.

Lemma at_most_one_active_check (d : DB) :
  (length (filter (λ r, is_active r.2 = true) (map_to_list (playlists d))) ≤ 1)%nat →
  at_most_one_active d.
Proof.
  intros Hlen i j pi pj Hi Hj Hai Haj.
  assert ((i, pi) ∈ filter (λ r : nat * Playlist, is_active r.2 = true)
                           (map_to_list (playlists d))) as Hini
    by (apply list_elem_of_filter; split; [done | by apply elem_of_map_to_list]).
  assert ((j, pj) ∈ filter (λ r : nat * Playlist, is_active r.2 = true)
                           (map_to_list (playlists d))) as Hinj
    by (apply list_elem_of_filter; split; [done | by apply elem_of_map_to_list]).
  destruct (filter _ _) as [|x [|y l]]; cbn in Hlen; [| | lia].
  - by apply elem_of_nil in Hini.
  - apply list_elem_of_singleton in Hini, Hinj. congruence.
Qed.










(** ** Retention cleanup *)

Lemma cleanup_playlist_run (id : nat) (p : Playlist) (w : World) :
  ∃ w', cleanup_playlist (id, p) w = (Returned tt, w') ∧
        db w' = mkDB (users (db w)) (uploads (db w)) (segments (db w))
                     (delete id (playlists (db w)))
                     (filter (λ e, playlist_id e ≠ id) (entries (db w))) ∧
        fs w' = delete (m3u_path_of id) (fs w) ∧
        committed w' = committed w.
Proof.
  unfold cleanup_playlist. cbn zeta.
  rewrite (run_bind_returned _ _ _ _ _ (os_path_exists_run _ _)).
  case_bool_decide as Hex.
  - eexists. split; [reflexivity |]. done.
  - eexists. split; [reflexivity |]. split; [done |]. split; [| done].
    cbn. symmetry. apply delete_id. by apply not_elem_of_dom.
Qed.

Lemma cleanup_loop_run (l : list (nat * Playlist)) :
  ∀ w : World,
    ∃ w',
      for_each l cleanup_playlist w = (Returned tt, w') ∧
      users (db w') = users (db w) ∧ uploads (db w') = uploads (db w) ∧
      segments (db w') = segments (db w) ∧
      (∀ j, playlists (db w') !! j =
            if decide (j ∈ l.*1) then None else playlists (db w) !! j) ∧
      entries (db w') = filter (λ e, playlist_id e ∉ l.*1) (entries (db w)) ∧
      (∀ path, fs w' !! path =
               if decide (path ∈ m3u_path_of <$> l.*1) then None else fs w !! path) ∧
      committed w' = committed w.
Proof.
  induction l as [|[id p] l IH]; intros w.
  - exists w. split; [done |]. repeat (split; [done |]). split; [| done].
    symmetry. apply filter_all, Forall_forall. intros e _. apply not_elem_of_nil.
  - cbn [for_each].
    destruct (cleanup_playlist_run id p w) as (w1 & E1 & Hd1 & Hf1 & Hc1).
    rewrite (run_bind_returned _ _ _ _ _ E1).
    destruct (IH w1) as (w2 & E2 & Hu & Hup & Hs & Hp & He & Hf & Hc).
    exists w2. split; [exact E2 |]. rewrite Hd1 in Hu, Hup, Hs, Hp, He.
    rewrite Hf1 in Hf. cbn in Hu, Hup, Hs, Hp, He, Hf.
    split; [done |]. split; [done |]. split; [done |].
    split; [| split; [| split; [| congruence]]].
    + intros j. rewrite Hp. cbn [fmap list_fmap fst].
      destruct (decide (j = id)) as [->|Hne].
      * rewrite (decide_True (P := id ∈ id :: l.*1)) by left.
        rewrite lookup_delete_eq. by destruct (decide _).
      * rewrite lookup_delete_ne by done.
        destruct (decide (j ∈ l.*1)) as [Hin|Hin].
        -- rewrite decide_True; [done | by right].
        -- rewrite decide_False; [done |]. by intros [?|?]%elem_of_cons.
    + rewrite He, list_filter_filter. apply list_filter_iff. intros e.
      cbn [fmap list_fmap fst]. rewrite not_elem_of_cons. tauto.
    + intros path. rewrite Hf. cbn [fmap list_fmap fst].
      destruct (decide (path = m3u_path_of id)) as [->|Hne].
      * rewrite (decide_True (P := m3u_path_of id ∈ m3u_path_of id :: _)) by left.
        rewrite lookup_delete_eq. by destruct (decide _).
      * rewrite lookup_delete_ne by done.
        destruct (decide (path ∈ m3u_path_of <$> l.*1)) as [Hin|Hin].
        -- rewrite decide_True; [done | by right].
        -- rewrite decide_False; [done |]. by intros [?|?]%elem_of_cons.
Qed.

Lemma old_playlists_elem (d : DB) (cutoff : datetime) (j : nat) :
  j ∈ (filter (λ r : nat * Playlist, created_at r.2 < cutoff ∧ is_active r.2 = false)
              (map_to_list (playlists d))).*1
  ↔ removed_by_cleanup d cutoff j.
Proof.
  unfold removed_by_cleanup, expired. rewrite list_elem_of_fmap. split.
  - intros ([k p] & -> & Hin). apply list_elem_of_filter in Hin as [Hold Hin].
    apply elem_of_map_to_list in Hin. cbn in *. by rewrite Hin.
  - destruct (playlists d !! j) as [p|] eqn:E; [| done]. intros Hold.
    exists (j, p). split; [done |]. apply list_elem_of_filter.
    split; [done |]. by apply elem_of_map_to_list.
Qed.

(** C9. [cleanup_old_playlists] removes exactly the playlists that are
    inactive and were created before the cutoff, [days_to_keep] days (7 by
    default) before now: an active playlist stays, whatever its age; the
    entries of the removed playlists are deleted and no others; the export
    file of each removed playlist is gone and no other file is touched; the
    result is committed. *)
Theorem cleanup_old_playlists_retention (days_to_keep : Z) (w : World) :
  let cutoff := now w - days_to_keep * 86400 in
  ∃ w',
    cleanup_old_playlists days_to_keep w = (Returned tt, w') ∧
    committed w' = db w' ∧
    users (db w') = users (db w) ∧ uploads (db w') = uploads (db w) ∧
    segments (db w') = segments (db w) ∧
    (∀ id p, playlists (db w) !! id = Some p → is_active p = true →
             playlists (db w') !! id = Some p) ∧
    (∀ id, playlists (db w') !! id =
           if decide (removed_by_cleanup (db w) cutoff id) then None
           else playlists (db w) !! id) ∧
    entries (db w') =
      filter (λ e, ¬ removed_by_cleanup (db w) cutoff (playlist_id e))
             (entries (db w)) ∧
    (∀ id, removed_by_cleanup (db w) cutoff id → fs w' !! m3u_path_of id = None) ∧
    (∀ path, (∀ id, removed_by_cleanup (db w) cutoff id → path ≠ m3u_path_of id) →
             fs w' !! path = fs w !! path) ∧
    (days_to_keep = default_days_to_keep → cutoff = now w - 604800).
Proof.
  intros cutoff. unfold cleanup_old_playlists. rewrite run_get_world. cbn zeta.
  fold cutoff.
  destruct (cleanup_loop_run
              (filter (λ r : nat * Playlist,
                         created_at r.2 < cutoff ∧ is_active r.2 = false)
                      (map_to_list (playlists (db w)))) w)
    as (w1 & E & Hu & Hup & Hs & Hp & He & Hf & Hc).
  rewrite (run_bind_returned _ _ _ _ _ E).
  eexists. split; [reflexivity |]. cbn [db committed fs].
  assert (∀ id, playlists (db w1) !! id =
                if decide (removed_by_cleanup (db w) cutoff id) then None
                else playlists (db w) !! id) as Hp'.
  { intros id. rewrite Hp.
    destruct (decide (id ∈ _)) as [Hin|Hin], (decide (removed_by_cleanup _ _ id))
      as [Hr|Hr]; try done.
    - by apply old_playlists_elem in Hin.
    - exfalso. by apply Hin, old_playlists_elem. }
  repeat (split; [done |]). split; [| split; [exact Hp' |]]; [| split; [| split; [| split]]].
  - intros id p Hid Ha. rewrite Hp', decide_False; [done |].
    unfold removed_by_cleanup, expired. rewrite Hid. intros [_ ?]. congruence.
  - rewrite He. apply list_filter_iff. intros e. by rewrite old_playlists_elem.
  - intros id Hr. rewrite Hf, decide_True; [done |].
    apply list_elem_of_fmap. exists id. split; [done |]. by apply old_playlists_elem.
  - intros path Hpath. rewrite Hf, decide_False; [done |].
    intros (id & -> & Hin)%list_elem_of_fmap.
    apply old_playlists_elem in Hin. by apply (Hpath id).
  - intros ->. unfold default_days_to_keep in cutoff. subst cutoff. lia.
Qed.

(** ** The AI host *)

Lemma string_app_nonempty (s t : string) : s ≠ "" → s +:+ t ≠ "".
Proof. destruct s as [|a s]; [done |]. intros _. discriminate. Qed.

Lemma random_choice_pair_run {A} (x y : A) (w : World) :
  ∃ z g, random_choice [x; y] w = (Returned z, set_rng g w) ∧ z ∈ [x; y].
Proof.
  unfold random_choice.
  destruct (randbelow_run 2 w) as (j & g & E & Hj); [lia |].
  cbn [length]. rewrite (run_bind_returned _ _ _ _ _ E).
  destruct j as [|[|j]]; [| | lia].
  - exists x, g. split; [done | left].
  - exists y, g. split; [done | right; left].
Qed.

Lemma select_personality_run (w : World) :
  ∃ p g, select_personality None w = (Returned p, set_rng g w) ∧
         p ∈ personality_bucket (hour (now w)).
Proof.
  unfold select_personality, personality_bucket. rewrite run_get_world. cbn zeta.
  repeat case_bool_decide; apply random_choice_pair_run.
Qed.

Lemma personality_bucket_known (h : Z) (p : string) :
  p ∈ personality_bucket h → p ∈ personalities.
Proof.
  unfold personality_bucket, personalities.
  repeat case_bool_decide; rewrite !elem_of_cons; tauto.
Qed.

Lemma generate_fallback_intro_text (metadata : gmap string (option string))
    (personality : string) :
  ∃ t, generate_fallback_intro metadata personality !! "text" = Some t ∧ t ≠ "".
Proof.
  unfold generate_fallback_intro. cbn zeta. rewrite lookup_insert_eq.
  eexists. split; [reflexivity |].
  rewrite (lookup_insert_ne _ "energetic" "professional") by done.
  rewrite (lookup_insert_ne _ "chill" "professional") by done.
  rewrite lookup_insert_eq. cbn [default from_option id].
  rewrite !lookup_insert, lookup_singleton.
  repeat case_decide; cbn; by apply string_app_nonempty.
Qed.

Lemma generate_fallback_intro_nonempty (metadata : gmap string (option string))
    (personality : string) :
  generate_fallback_intro metadata personality ≠ ∅.
Proof.
  intros H. destruct (generate_fallback_intro_text metadata personality) as (t & Ht & _).
  by rewrite H in Ht.
Qed.

Lemma call_ai_brain_run (endpoint : string) (w : World) :
  call_ai_brain endpoint w =
  (Returned (match head (brain w) with
             | Some (Json fields) => Some fields
             | _ => None
             end),
   mkWorld (db w) (committed w) (fs w) (rng w) (now w) (tail (brain w))
           (brain_log w ++ [endpoint]) (observed w)).
Proof. reflexivity. Qed.

(** [generate_intro] always returns a dict with a [text]: the stripped reply
    of the AI Brain, or else the template of a personality of the bucket of
    the hour.  It contacts the AI Brain once. *)
Lemma generate_intro_run (metadata : gmap string (option string)) (w : World) :
  ∃ intro p g t,
    generate_intro metadata w =
    (Returned intro,
     mkWorld (db w) (committed w) (fs w) g (now w) (tail (brain w))
             (brain_log w ++ ["generate_text"]) (observed w)) ∧
    p ∈ personality_bucket (hour (now w)) ∧
    intro ≠ ∅ ∧
    intro !! "text" = Some t ∧
    match brain_text (brain w) with
    | Some text => t = strip text
    | None => intro = generate_fallback_intro metadata p ∧ t ≠ ""
    end.
Proof.
  destruct (select_personality_run w) as (p & g & E & Hp).
  destruct (generate_fallback_intro_text metadata p) as (ft & Hft & Hne).
  assert (∃ intro t,
    (match brain_text (brain w) with
     | Some text =>
         ret ({[ "text" := strip text; "personality" := p ]} : gmap string string)
     | None => ret (generate_fallback_intro metadata p)
     end : M (gmap string string))
      (mkWorld (db w) (committed w) (fs w) g (now w) (tail (brain w))
               (brain_log w ++ ["generate_text"]) (observed w))
    = (Returned intro,
       mkWorld (db w) (committed w) (fs w) g (now w) (tail (brain w))
               (brain_log w ++ ["generate_text"]) (observed w)) ∧
    intro ≠ ∅ ∧ intro !! "text" = Some t ∧
    match brain_text (brain w) with
    | Some text => t = strip text
    | None => intro = generate_fallback_intro metadata p ∧ t ≠ ""
    end) as (intro & t & Hrun & Hi & Ht & Hcase).
  { destruct (brain_text (brain w)) as [text|].
    - eexists _, _. split; [reflexivity |]. split; [| split; [apply lookup_insert_eq | done]].
      intros H. apply (f_equal (.!! "text")) in H.
      by rewrite lookup_insert_eq, lookup_empty in H.
    - exists (generate_fallback_intro metadata p), ft.
      split; [done |]. split; [apply generate_fallback_intro_nonempty | done]. }
  exists intro, p, g, t. split; [| done].
  unfold generate_intro, try_except.
  rewrite (run_bind_returned _ _ _ _ _ E).
  rewrite bool_decide_eq_true_2 by (by eapply personality_bucket_known).
  rewrite run_ret, (run_bind_returned _ _ _ _ _ (call_ai_brain_run _ _)).
  cbn [brain set_rng db committed fs rng now brain_log observed].
  unfold brain_text in Hrun.
  destruct (head (brain w)) as [[|fields]|]; cbn [mbind option_bind];
    by rewrite Hrun.
Qed.

Lemma generate_audio_run (text output_filename : string) (w : World) :
  ∃ w',
    generate_audio text output_filename w =
    (Returned (match brain_audio (brain w) with
               | Some _ => Some (os_path_join output_dir (output_filename +:+ ".mp3"))
               | None => None
               end), w') ∧
    db w' = db w ∧ committed w' = committed w ∧ rng w' = rng w ∧ now w' = now w ∧
    brain w' = tail (brain w) ∧ brain_log w' = brain_log w ++ ["generate_tts"] ∧
    (brain_audio (brain w) = None → fs w' = fs w ∧ observed w' = observed w).
Proof.
  unfold generate_audio, try_except, brain_audio. cbn zeta.
  rewrite (run_bind_returned _ _ _ _ _ (call_ai_brain_run _ _)).
  destruct (head (brain w)) as [[|fields]|]; cbn [mbind option_bind].
  - eexists. split; [reflexivity |]. done.
  - destruct (fields !! "audio_data") as [data|].
    + eexists. split; [reflexivity |]. done.
    + eexists. split; [reflexivity |]. done.
  - eexists. split; [reflexivity |]. done.
Qed.

(** ** Narration segments *)


Lemma Segment_first_new (d d' : DB) (u : nat) (s : Segment) :
  segments d' = segments d ++ [s] →
  Segment_first d u = None → segment_upload_id s = u →
  Segment_first d' u = Some s.
Proof.
  unfold Segment_first. intros -> Hnone Hs.
  destruct (list_find _ (segments d)) as [[i x]|] eqn:E; [done |].
  rewrite list_find_app_r by done. cbn. by rewrite decide_True.
Qed.

Lemma db_session_add_segment_run (upload : nat) (text : string)
    (audio : option string) (pos : option Z) (w : World) :
  db_session_add_segment upload text audio pos w =
  (Returned (next_id (segment_id <$> segments (db w))),
   set_db (λ d, mkDB (users d) (uploads d)
                     (segments d ++
                        [mkSegment (next_id (segment_id <$> segments (db w)))
                                   upload (Some text) audio pos])
                     (playlists d) (entries d)) w).
Proof. reflexivity. Qed.

Lemma upload_metadata_run (upload : Upload) (user : User) (w : World) :
  users (db w) !! user_id upload = Some user →
  upload_metadata upload w = (Returned (metadata_dict upload user), w).
Proof. intros H. unfold upload_metadata. by rewrite run_get_world, H. Qed.

Lemma no_audio_tail (replies : list brain_reply) :
  no_audio replies → no_audio (tail replies).
Proof. unfold no_audio. destruct 1; [constructor | done]. Qed.

Lemma no_audio_head (replies : list brain_reply) :
  no_audio replies → brain_audio replies = None.
Proof.
  unfold no_audio, brain_audio. destruct 1 as [|r l Hr _]; [done |].
  cbn. by destruct r.
Qed.

Lemma intro_text_run (intro : gmap string string) (t : string) (w : World) :
  intro !! "text" = Some t → intro_text intro w = (Returned t, w).
Proof. intros H. unfold intro_text. by rewrite H. Qed.

Lemma generate_entry_segment_run (e : PlaylistEntry) (w : World) :
  entry_ok (db w) e →
  ∃ w' new,
    generate_entry_segment e w = (Returned tt, w') ∧
    users (db w') = users (db w) ∧ uploads (db w') = uploads (db w) ∧
    playlists (db w') = playlists (db w) ∧ entries (db w') = entries (db w) ∧
    now w' = now w ∧ committed w' = committed w ∧
    segments (db w') = segments (db w) ++ new ∧
    Forall (λ s, segment_upload_id s = upload_id e) new ∧
    is_Some (Segment_first (db w') (upload_id e)) ∧
    (is_Some (Segment_first (db w) (upload_id e)) → w' = w ∧ new = []) ∧
    (Segment_first (db w) (upload_id e) = None →
     length new = 1%nat ∧
     brain_log w' = brain_log w ++ ["generate_text"; "generate_tts"]) ∧
    (brain w = [] →
     brain w' = [] ∧ fs w' = fs w ∧
     Forall (templated_segment (db w) (hour (now w))) new) ∧
    (no_audio (brain w) →
     no_audio (brain w') ∧ Forall text_only_segment new).
Proof.
  intros Hok. unfold entry_ok in Hok. unfold generate_entry_segment.
  rewrite run_get_world.
  destruct (uploads (db w) !! upload_id e) as [u|] eqn:Eu; [| done].
  destruct Hok as [user Huser]. cbn [attr]. rewrite run_ret.
  destruct (Segment_first (db w) (upload_id e)) as [s0|] eqn:Es.
  { exists w, nil. split; [done |]. rewrite app_nil_r, Es.
    repeat (split; [done |]). constructor. }
  rewrite (run_bind_returned _ _ _ _ _ (upload_metadata_run u user w Huser)).
  destruct (generate_intro_run (metadata_dict u user) w)
    as (intro & p & g & t & Ei & Hp & Hne & Ht & Hcase).
  rewrite (run_bind_returned _ _ _ _ _ Ei).
  rewrite bool_decide_eq_false_2 by done.
  rewrite run_get_world. cbn zeta.
  rewrite (run_bind_returned _ _ _ _ _ (intro_text_run _ _ _ Ht)).
  match goal with |- context [(generate_audio t ?f ≫= _) ?w0] =>
    destruct (generate_audio_run t f w0)
      as (w2 & Ea & Hd2 & Hc2 & Hr2 & Hn2 & Hb2 & Hl2 & Hfs2)
  end.
  rewrite (run_bind_returned _ _ _ _ _ Ea).
  rewrite (run_bind_returned _ _ _ _ _ (db_session_add_segment_run _ _ _ _ _)).
  cbn [db committed fs rng now brain brain_log observed] in Hd2, Hc2, Hr2, Hn2, Hb2, Hl2, Hfs2.
  eexists _, [_]. split; [reflexivity |].
  cbn [set_db db users uploads playlists entries segments now committed brain brain_log fs].
  rewrite Hd2. split_and!; try done.
  - by repeat constructor.
  - erewrite (Segment_first_new (db w)); [eauto | reflexivity | exact Es | done].
  - intros _. split; [done |]. by rewrite Hl2, <- app_assoc.
  - intros Hb. rewrite Hb2, Hb. split; [done |].
    assert (brain_text (brain w) = None) as Hbt by (by rewrite Hb).
    rewrite Hbt in Hcase. destruct Hcase as [-> Htne].
    match type of Hfs2 with ?a = None → _ =>
      assert (a = None) as Hba by (by rewrite Hb) end.
    destruct (Hfs2 Hba) as [-> _]. split; [done |].
    constructor; [| done]. unfold templated_segment. cbn.
    split; [done |]. exists u, user, p, t. by rewrite Eu.
  - intros Hna. rewrite Hb2. split; [by do 2 apply no_audio_tail |].
    constructor; [| done]. unfold text_only_segment. cbn.
    rewrite (no_audio_head _ (no_audio_tail _ Hna)). eauto.
Qed.





(** ** The [generate_dj_intro] task *)

Lemma generate_dj_intro_skipped (retries : Z) (upload_id : nat) (w : World) :
  is_Some (uploads (db w) !! upload_id) →
  is_Some (Segment_first (db w) upload_id) →
  generate_dj_intro retries upload_id w =
  (Returned (TaskSkipped "Intro already exists"), w).
Proof.
  intros [u Hu] [s Hs]. unfold generate_dj_intro, try_except.
  by rewrite run_get_world, Hu, Hs.
Qed.

Lemma output_path_truthy (output_filename : string) :
  ∃ a s, os_path_join output_dir (output_filename +:+ ".mp3") = String a s.
Proof. eexists _, _. reflexivity. Qed.

(** One execution of the task for an upload that has no segment yet: it
    contacts the AI Brain for the text and for the audio; it creates and
    commits the segment when the audio arrives, and fails otherwise, asking
    for a retry as long as retries are left. *)
Lemma generate_dj_intro_run (retries : Z) (upload_id : nat) (w : World)
    (upload : Upload) (user : User) :
  uploads (db w) !! upload_id = Some upload →
  users (db w) !! user_id upload = Some user →
  Segment_first (db w) upload_id = None →
  ∃ r w' t,
    generate_dj_intro retries upload_id w = (r, w') ∧
    brain_log w' = brain_log w ++ ["generate_text"; "generate_tts"] ∧
    brain w' = tail (tail (brain w)) ∧
    (brain_text (brain w) = None → t ≠ "") ∧
    match brain_audio (tail (brain w)) with
    | Some _ =>
        ∃ personality audio,
          let segment := next_id (segment_id <$> segments (db w)) in
          r = Returned (TaskSuccess segment (String.substring 0 100 t +:+ "...")
                                    personality) ∧
          db w' = mkDB (users (db w)) (uploads (db w))
                    (segments (db w) ++
                       [mkSegment segment upload_id (Some t) (Some audio) None])
                    (playlists (db w)) (entries (db w)) ∧
          committed w' = db w'
    | None =>
        r = (if bool_decide (retries < max_retries)
             then Raised (Retry (2 ^ retries))
             else Returned (TaskError "Failed to generate intro audio")) ∧
        db w' = db w ∧ committed w' = committed w ∧ fs w' = fs w
    end.
Proof.
  intros Hu Huser Hs. unfold generate_dj_intro, try_except.
  rewrite run_get_world, Hu, Hs.
  rewrite (run_bind_returned _ _ _ _ _ (upload_metadata_run upload user w Huser)).
  destruct (generate_intro_run (metadata_dict upload user) w)
    as (intro & p & g & t & Ei & Hp & Hne & Ht & Hcase).
  rewrite (run_bind_returned _ _ _ _ _ Ei).
  rewrite bool_decide_eq_false_2 by done. rewrite run_ret. cbn zeta.
  rewrite (run_bind_returned _ _ _ _ _ (intro_text_run _ _ _ Ht)).
  match goal with |- context [(generate_audio t ?f ≫= _) ?w0] =>
    destruct (generate_audio_run t f w0)
      as (w2 & Ea & Hd2 & Hc2 & Hr2 & Hn2 & Hb2 & Hl2 & Hfs2);
    destruct (output_path_truthy f) as (a & rest & Hpath)
  end.
  rewrite (run_bind_returned _ _ _ _ _ Ea).
  cbn [db committed fs rng now brain brain_log observed] in Hd2, Hc2, Hr2, Hn2, Hb2, Hl2, Hfs2.
  cbn [brain].
  assert (brain_text (brain w) = None → t ≠ "") as Htext.
  { intros Hbt. rewrite Hbt in Hcase. by destruct Hcase. }
  destruct (brain_audio (tail (brain w))) as [data|] eqn:Eaudio.
  - rewrite Hpath.
    rewrite (run_bind_returned _ _ _ _ _ (db_session_add_segment_run _ _ _ _ _)).
    unfold db_session_commit. rewrite run_modify.
    eexists _, _, t. split; [reflexivity |].
    cbn [set_db db committed brain brain_log]. rewrite Hd2, Hl2, Hb2, <- app_assoc.
    split; [done |]. split; [done |]. split; [done |].
    eexists _, _. split; [reflexivity |]. done.
  - cbn [raise]. destruct (Hfs2 eq_refl) as [Hfs _].
    exists (if bool_decide (retries < max_retries)
            then Raised (Retry (2 ^ retries))
            else Returned (TaskError "Failed to generate intro audio")), w2, t.
    split; [by case_bool_decide |].
    rewrite Hl2, Hb2, <- app_assoc. done.
Qed.







(** ** Playlists that do not exist *)

Lemma same_content_deactivated (d : DB) : same_content (deactivated d) d.
Proof. unfold deactivated. by destruct (Playlist_first_active d). Qed.

(** X1. For a playlist id that is not in the database,
    [generate_playlist_segments] returns [False] and [export_playlist_to_m3u]
    returns [None], both without touching anything.  [activate_playlist]
    returns [False], commits nothing and writes no file, but it has already
    deactivated the current playlist in the session: the tables keep their
    rows, and from a state with at most one active playlist the session is
    left with no active playlist at all. *)
Theorem unknown_playlist_id (id : nat) (w : World) :
  playlists (db w) !! id = None →
  generate_playlist_segments id w = (Returned false, w) ∧
  export_playlist_to_m3u id w = (Returned None, w) ∧
  ∃ w',
    activate_playlist id w = (Returned false, w') ∧
    committed w' = committed w ∧ fs w' = fs w ∧ observed w' = observed w ∧
    same_content (db w') (db w) ∧
    (∀ j, is_Some (playlists (db w') !! j) ↔ is_Some (playlists (db w) !! j)) ∧
    (at_most_one_active (db w) →
     ∀ j p, playlists (db w') !! j = Some p → is_active p = false).
Proof.
  intros Hid. split; [| split].
  - unfold generate_playlist_segments. by rewrite run_get_world, Hid.
  - by apply export_playlist_to_m3u_missing.
  - exists (set_db deactivated w). split; [by apply activate_playlist_missing |].
    cbn [set_db committed fs observed db].
    split_and!; try done.
    + apply same_content_deactivated.
    + intros j. apply deactivated_lookup_is_Some.
    + intros Hone j p. by apply deactivated_none_active.
Qed.

Lemma unknown_playlist_id_witness :
  ∃ w',
    activate_playlist 9 radio_world = (Returned false, w') ∧
    committed w' = committed radio_world ∧
    is_active <$> playlists (committed w') !! 1%nat = Some true ∧
    is_active <$> playlists (db w') !! 1%nat = Some false.
Proof.
  destruct (unknown_playlist_id 9 radio_world)
    as (_ & _ & w' & E & Hc & _ & _ & _ & Hsome & Hoff).
  { vm_compute. reflexivity. }
  exists w'. split; [exact E |]. split; [exact Hc |].
  split; [rewrite Hc; vm_compute; reflexivity |].
  destruct (proj2 (Hsome 1%nat)) as [p Hp]; [vm_compute; eauto |].
  rewrite Hp. cbn. f_equal. eapply Hoff; [| exact Hp].
  apply at_most_one_active_check. vm_compute. lia.
Defined.

(** ** What the export leaves alone *)

(** X2. Whatever its outcome, [export_playlist_to_m3u] leaves the database
    (session and committed), the AI Brain and every file other than
    [playlist_<id>.m3u] as they were.  For an unknown playlist it returns
    [None] and writes nothing; for a known one the export file exists
    afterwards, also when the export raises, and the result is never
    [None]. *)
Theorem export_playlist_to_m3u_frame (id : nat) (w : World) :
  ∃ r w',
    export_playlist_to_m3u id w = (r, w') ∧
    db w' = db w ∧ committed w' = committed w ∧
    brain w' = brain w ∧ brain_log w' = brain_log w ∧
    (∀ path, path ≠ m3u_path_of id → fs w' !! path = fs w !! path) ∧
    (playlists (db w) !! id = None → r = Returned None ∧ fs w' = fs w) ∧
    (is_Some (playlists (db w) !! id) →
     is_Some (fs w' !! m3u_path_of id) ∧ r ≠ Returned None).
Proof.
  destruct (playlists (db w) !! id) as [p|] eqn:Hp.
  - destruct (export_playlist_to_m3u_run id w) as (r & w' & c & E & F & Hfs & Hr & _);
      [by rewrite Hp |].
    exists r, w'. split; [exact E |].
    destruct F as (Hd & Hc & _ & _ & Hb & Hl & _).
    split_and!; try done.
    + intros path Hne. by rewrite Hfs, lookup_insert_ne.
    + intros _. rewrite Hfs, lookup_insert_eq. split; [eauto |].
      intros ->. by specialize (Hr None eq_refl).
  - exists (Returned None), w. split; [by apply export_playlist_to_m3u_missing |].
    split_and!; try done.
Qed.



(** ** Entries whose upload is gone *)

Lemma write_main_content_appends (m3u c : string) (u : Upload) (w : World) :
  fs w !! m3u = Some c →
  ∃ r w' suffix,
    write_main_content m3u u w = (r, w') ∧ frame w w' ∧
    fs w' = <[m3u := c +:+ suffix]> (fs w) ∧
    (∀ x, r = Raised x → x = AttributeError "username").
Proof.
  intros Hc.
  destruct (users (db w) !! user_id u) as [user|] eqn:Hu.
  - destruct (write_main_content_run m3u c u w Hc) as (r & w' & c' & E & F & Hfs & Hok).
    destruct Hok as [-> ->]; [by rewrite Hu |].
    eexists _, w', _. split; [exact E |]. split; [exact F |]. split; [exact Hfs | done].
  - unfold write_main_content.
    assert (fs w = <[m3u := c +:+ ""]> (fs w)) as Hid
      by (by rewrite string_app_nil_r, insert_id).
    destruct (filename u) as [file|].
    2:{ exists (Returned tt), w, "". split; [done |]. split; [apply frame_refl |]. done. }
    rewrite (run_bind_returned _ _ _ _ _ (os_path_exists_run _ _)).
    destruct (bool_decide (file ≠ "") && bool_decide (file ∈ dom (fs w))).
    2:{ exists (Returned tt), w, "". split; [done |]. split; [apply frame_refl |]. done. }
    rewrite run_get_world, Hu.
    exists (Raised (AttributeError "username")), w, "".
    split; [done |]. split; [apply frame_refl |]. split; [done |]. by intros x [= <-].
Qed.

Lemma export_entry_appends (m3u c : string) (e : PlaylistEntry) (w : World) :
  fs w !! m3u = Some c →
  ∃ r w' suffix,
    export_entry m3u e w = (r, w') ∧ frame w w' ∧
    fs w' = <[m3u := c +:+ suffix]> (fs w) ∧
    (∀ x, r = Raised x → ∃ a, x = AttributeError a) ∧
    (uploads (db w) !! upload_id e = None → r = Raised (AttributeError "id")).
Proof.
  intros Hc. unfold export_entry. rewrite run_get_world.
  destruct (uploads (db w) !! upload_id e) as [u|].
  2:{ exists (Raised (AttributeError "id")), w, "". split; [done |].
      split; [apply frame_refl |].
      split; [by rewrite string_app_nil_r, insert_id |].
      split; [intros x [= <-]; eauto | done]. }
  cbn [attr]. rewrite run_ret.
  destruct (write_dj_intro_run m3u c e u w Hc) as (w1 & E1 & F1 & Hfs1).
  rewrite (run_bind_returned _ _ _ _ _ E1).
  destruct (write_main_content_appends m3u
              (c +:+ unlines (narration_lines (db w) (dom (fs w)) e u)) u w1)
    as (r & w2 & suffix & E2 & F2 & Hfs2 & Hr).
  { rewrite Hfs1. apply lookup_insert_eq. }
  eexists r, w2, _. split; [exact E2 |]. split; [by eapply frame_trans |].
  split; [by rewrite Hfs2, Hfs1, insert_insert_eq, string_app_assoc |].
  split; [| done]. intros x Hx. apply Hr in Hx. eauto.
Qed.

Lemma export_loop_appends (m3u : string) (l : list PlaylistEntry) :
  ∀ (c : string) (w : World),
    fs w !! m3u = Some c →
    ∃ r w' suffix,
      for_each l (export_entry m3u) w = (r, w') ∧ frame w w' ∧
      fs w' = <[m3u := c +:+ suffix]> (fs w) ∧
      (∀ x, r = Raised x → ∃ a, x = AttributeError a) ∧
      (Exists (λ e, uploads (db w) !! upload_id e = None) l →
       ∃ a, r = Raised (AttributeError a)).
Proof.
  induction l as [|e l IH]; intros c w Hc.
  - exists (Returned tt), w, "". split; [done |]. split; [apply frame_refl |].
    split; [by rewrite string_app_nil_r, insert_id |].
    split; [done |]. intros H. by apply Exists_nil in H.
  - cbn [for_each].
    destruct (export_entry_appends m3u c e w Hc)
      as (r1 & w1 & s1 & E1 & F1 & Hfs1 & Hr1 & Hbad1).
    destruct r1 as [[]|ex].
    2:{ exists (Raised ex), w1, s1. rewrite (run_bind_raised _ _ _ _ _ E1).
        split; [done |]. split; [done |]. split; [done |].
        split; [intros x [= <-]; by apply Hr1 |].
        intros _. destruct (Hr1 ex eq_refl) as [a ->]. eauto. }
    rewrite (run_bind_returned _ _ _ _ _ E1).
    destruct (IH (c +:+ s1) w1) as (r & w2 & s2 & E2 & F2 & Hfs2 & Hr2 & Hbad2).
    { rewrite Hfs1. apply lookup_insert_eq. }
    eexists r, w2, _. split; [exact E2 |]. split; [by eapply frame_trans |].
    split; [by rewrite Hfs2, Hfs1, insert_insert_eq, string_app_assoc |].
    split; [done |].
    intros Hex. apply Exists_cons in Hex as [Hex|Hex].
    + by specialize (Hbad1 Hex).
    + apply Hbad2. destruct F1 as (-> & _). done.
Qed.

(** X4. When an entry of the playlist refers to an upload that no longer
    exists, [export_playlist_to_m3u] raises [AttributeError] and returns no
    path; the database is untouched, but the export file has been
    truncated and holds the header line followed by whatever was written
    before the failure. *)
Theorem export_playlist_to_m3u_dangling_entry (id : nat) (e : PlaylistEntry) (w : World) :
  is_Some (playlists (db w) !! id) →
  e ∈ playlist_entries (db w) id →
  uploads (db w) !! upload_id e = None →
  ∃ a w' rest,
    export_playlist_to_m3u id w = (Raised (AttributeError a), w') ∧
    db w' = db w ∧ committed w' = committed w ∧
    fs w' = <[m3u_path_of id := "#EXTM3U" +:+ LF +:+ rest]> (fs w).
Proof.
  intros [p Hp] He Hu. unfold export_playlist_to_m3u. rewrite run_get_world, Hp.
  cbn zeta. unfold open_w. rewrite run_modify.
  rewrite (run_bind_returned _ _ _ _ _ (f_write_run _ _ _)).
  match goal with |- context [for_each _ _ ≫= _] =>
    match goal with |- context [(_ ≫= _) ?w0] => set (w1 := w0) end end.
  assert (frame w w1) as F01.
  { eapply frame_trans; apply frame_set_fs. }
  assert (fs w1 = <[m3u_path_of id := "#EXTM3U" +:+ LF]> (fs w)) as Hfs1.
  { subst w1. cbn [fs set_fs]. rewrite lookup_insert_eq, insert_insert_eq. done. }
  destruct (export_loop_appends (m3u_path_of id)
              (sorted_by_position (playlist_entries (db w) id))
              ("#EXTM3U" +:+ LF) w1)
    as (r & w2 & rest & E2 & F2 & Hfs2 & _ & Hbad).
  { rewrite Hfs1. apply lookup_insert_eq. }
  destruct Hbad as [a ->].
  { apply Exists_exists. exists e. split.
    - by rewrite sorted_by_position_Permutation.
    - destruct F01 as (-> & _). done. }
  exists a, w2, rest. rewrite (run_bind_raised _ _ _ _ _ E2).
  split; [done |].
  destruct (frame_trans _ _ _ F01 F2) as (Hd & Hc & _).
  split; [done |]. split; [done |].
  by rewrite Hfs2, Hfs1, insert_insert_eq, string_app_assoc.
Qed.

Lemma export_playlist_to_m3u_dangling_entry_witness :
  ∃ a w' rest,
    export_playlist_to_m3u 2 stale_world = (Raised (AttributeError a), w') ∧
    db w' = db stale_world ∧ committed w' = committed stale_world ∧
    fs w' = <[m3u_path_of 2 := "#EXTM3U" +:+ LF +:+ rest]> (fs stale_world).
Proof.
  apply (export_playlist_to_m3u_dangling_entry 2 (mkPlaylistEntry 2 3 1) stale_world).
  - vm_compute. eauto.
  - apply (bool_decide_unpack _). vm_compute. exact I.
  - vm_compute. reflexivity.
Defined.

(** ** Segment generation, whatever its outcome *)

Lemma upload_metadata_raises (upload : Upload) (w : World) :
  users (db w) !! user_id upload = None →
  upload_metadata upload w = (Raised (AttributeError "username"), w).
Proof. intros H. unfold upload_metadata. by rewrite run_get_world, H. Qed.

Lemma generate_entry_segment_any (e : PlaylistEntry) (w : World) :
  ∃ r w' new,
    generate_entry_segment e w = (r, w') ∧
    users (db w') = users (db w) ∧ uploads (db w') = uploads (db w) ∧
    playlists (db w') = playlists (db w) ∧ entries (db w') = entries (db w) ∧
    committed w' = committed w ∧
    segments (db w') = segments (db w) ++ new ∧
    (∀ x, r = Raised x → ∃ a, x = AttributeError a) ∧
    (uploads (db w) !! upload_id e = None → r = Raised (AttributeError "id")).
Proof.
  destruct (decide (entry_ok (db w) e)) as [Hok|Hno].
  - destruct (generate_entry_segment_run e w Hok)
      as (w' & new & E & Hu & Hup & Hp & He & _ & Hc & Hs & _).
    exists (Returned tt), w', new. split_and!; try done.
    intros Hnone. unfold entry_ok in Hok. by rewrite Hnone in Hok.
  - unfold generate_entry_segment. rewrite run_get_world. unfold entry_ok in Hno.
    destruct (uploads (db w) !! upload_id e) as [u|] eqn:Eu.
    + destruct (users (db w) !! user_id u) as [user|] eqn:Eus; [exfalso; eauto |].
      cbn [attr]. rewrite run_ret.
      destruct (Segment_first (db w) (upload_id e)).
      * exists (Returned tt), w, nil. rewrite app_nil_r. split_and!; done.
      * rewrite (run_bind_raised _ _ _ _ _ (upload_metadata_raises u w Eus)).
        exists (Raised (AttributeError "username")), w, nil. rewrite app_nil_r.
        split_and!; try done. intros x [= <-]. eauto.
    + exists (Raised (AttributeError "id")), w, nil. rewrite app_nil_r.
      split_and!; try done. intros x [= <-]. eauto.
Qed.

Lemma generate_segments_loop_any (l : list PlaylistEntry) :
  ∀ w : World,
    ∃ r w' new,
      for_each l generate_entry_segment w = (r, w') ∧
      users (db w') = users (db w) ∧ uploads (db w') = uploads (db w) ∧
      playlists (db w') = playlists (db w) ∧ entries (db w') = entries (db w) ∧
      committed w' = committed w ∧
      segments (db w') = segments (db w) ++ new ∧
      (∀ x, r = Raised x → ∃ a, x = AttributeError a) ∧
      (Exists (λ e, uploads (db w) !! upload_id e = None) l →
       ∃ a, r = Raised (AttributeError a)).
Proof.
  induction l as [|e l IH]; intros w.
  - exists (Returned tt), w, nil. rewrite app_nil_r. split_and!; try done.
    intros H. by apply Exists_nil in H.
  - cbn [for_each].
    destruct (generate_entry_segment_any e w)
      as (r1 & w1 & new1 & E1 & Hu1 & Hup1 & Hp1 & He1 & Hc1 & Hs1 & Hr1 & Hbad1).
    destruct r1 as [[]|ex].
    2:{ exists (Raised ex), w1, new1. rewrite (run_bind_raised _ _ _ _ _ E1).
        split_and!; try done.
        intros _. destruct (Hr1 ex eq_refl) as [a ->]. eauto. }
    rewrite (run_bind_returned _ _ _ _ _ E1).
    destruct (IH w1)
      as (r & w2 & new2 & E2 & Hu2 & Hup2 & Hp2 & He2 & Hc2 & Hs2 & Hr2 & Hbad2).
    exists r, w2, (new1 ++ new2). split; [exact E2 |].
    split_and!; try congruence; try done.
    + by rewrite Hs2, Hs1, app_assoc.
    + intros Hex. apply Exists_cons in Hex as [Hex|Hex].
      * by specialize (Hbad1 Hex).
      * apply Hbad2. by rewrite Hup1.
Qed.

(** [generate_playlist_segments] in every case: unknown playlist, all
    entries done, or a reference missing on the way. *)
Lemma generate_playlist_segments_any (id : nat) (w : World) :
  ∃ r w' new,
    generate_playlist_segments id w = (r, w') ∧
    users (db w') = users (db w) ∧ uploads (db w') = uploads (db w) ∧
    playlists (db w') = playlists (db w) ∧ entries (db w') = entries (db w) ∧
    segments (db w') = segments (db w) ++ new ∧
    (r = Returned true ∧ committed w' = db w' ∧ is_Some (playlists (db w) !! id) ∨
     r = Returned false ∧ w' = w ∧ playlists (db w) !! id = None ∨
     (∃ a, r = Raised (AttributeError a)) ∧ committed w' = committed w) ∧
    (is_Some (playlists (db w) !! id) →
     Exists (λ e, uploads (db w) !! upload_id e = None) (playlist_entries (db w) id) →
     ∃ a, r = Raised (AttributeError a)).
Proof.
  unfold generate_playlist_segments. rewrite run_get_world.
  destruct (playlists (db w) !! id) as [p|] eqn:Hp.
  2:{ exists (Returned false), w, nil. rewrite app_nil_r. split_and!; try done.
      right. by left. }
  destruct (generate_segments_loop_any (playlist_entries (db w) id) w)
    as (r & w1 & new & E & Hu & Hup & Hpl & He & Hc & Hs & Hr & Hbad).
  destruct r as [[]|ex].
  - rewrite (run_bind_returned _ _ _ _ _ E).
    unfold db_session_commit. rewrite run_modify.
    eexists (Returned true), _, new. split; [reflexivity |].
    cbn [db committed]. split_and!; try done.
    + left. eauto.
    + intros _ Hex. destruct (Hbad Hex) as [a [=]].
  - rewrite (run_bind_raised _ _ _ _ _ E).
    exists (Raised ex), w1, new. split_and!; try done.
    + right. right. split; [| done]. destruct (Hr ex eq_refl) as [a ->]. eauto.
    + intros _ Hex. destruct (Hbad Hex) as [a [= ->]]. eauto.
Qed.

(** X5. Whatever its outcome, [generate_playlist_segments] only appends
    to the segment table: users, uploads, playlists and entries stay as they
    are and no existing segment is changed or removed.  It returns [True]
    after committing, or [False] for an unknown playlist (then nothing
    changed), or it raises an [AttributeError] from a missing reference, and
    then nothing was committed: segments created for earlier entries are
    pending in the session only.  It does raise when an entry of the
    playlist refers to an upload that does not exist. *)
Theorem generate_playlist_segments_frame (id : nat) (w : World) :
  ∃ r w' new,
    generate_playlist_segments id w = (r, w') ∧
    users (db w') = users (db w) ∧ uploads (db w') = uploads (db w) ∧
    playlists (db w') = playlists (db w) ∧ entries (db w') = entries (db w) ∧
    segments (db w') = segments (db w) ++ new ∧
    (r = Returned true ∧ committed w' = db w' ∧ is_Some (playlists (db w) !! id) ∨
     r = Returned false ∧ w' = w ∧ playlists (db w) !! id = None ∨
     (∃ a, r = Raised (AttributeError a)) ∧ committed w' = committed w) ∧
    (is_Some (playlists (db w) !! id) →
     Exists (λ e, uploads (db w) !! upload_id e = None) (playlist_entries (db w) id) →
     ∃ a, r = Raised (AttributeError a)).
Proof. exact (generate_playlist_segments_any id w). Qed.

(** ** The daily run *)


Lemma approved_content (w : World) (i : nat) (u : Upload) :
  uploads (db w) !! i = Some u → status u = "approved" →
  media_type u = "audio" ∨ media_type u = "video" →
  ¬ (uploads_filter_by (db w) "approved" "audio" = [] ∧
     uploads_filter_by (db w) "approved" "video" = []).
Proof.
  intros Hu Hst Hmt [Ea Ev]. destruct Hmt as [Hmt|Hmt].
  - assert ((i, u) ∈ uploads_filter_by (db w) "approved" "audio") as Hin
      by (by apply uploads_filter_by_elem).
    rewrite Ea in Hin. by apply elem_of_nil in Hin.
  - assert ((i, u) ∈ uploads_filter_by (db w) "approved" "video") as Hin
      by (by apply uploads_filter_by_elem).
    rewrite Ev in Hin. by apply elem_of_nil in Hin.
Qed.

(** The entries of a selection refer to the uploads selected. *)
Lemma entries_for_elem (id : nat) (selected : list (nat * Upload)) (e : PlaylistEntry) :
  e ∈ entries_for id selected →
  ∃ r, r ∈ selected ∧ upload_id e = r.1 ∧ playlist_id e = id.
Proof.
  unfold entries_for. intros He.
  apply list_elem_of_lookup in He as [i Hi].
  rewrite list_lookup_imap in Hi.
  destruct (selected !! i) as [r|] eqn:Hr; [| done].
  cbn in Hi. injection Hi as <-. exists r. split; [| done].
  by eapply list_elem_of_lookup_2.
Qed.

Lemma selected_in_pools (d : DB) (ap ar vp vr sel : list (nat * Upload)) (r : nat * Upload) :
  ap ++ ar ≡ₚ uploads_filter_by d "approved" "audio" →
  vp ++ vr ≡ₚ uploads_filter_by d "approved" "video" →
  sel ≡ₚ ap ++ vp →
  r ∈ sel →
  uploads d !! r.1 = Some r.2 ∧ status r.2 = "approved" ∧
  (media_type r.2 = "audio" ∨ media_type r.2 = "video").
Proof.
  intros Ha Hv Hs Hr. rewrite Hs in Hr. apply elem_of_app in Hr as [Hr|Hr].
  - eapply picks_in_pool in Hr; [| exact Ha].
    apply uploads_filter_by_elem in Hr as (? & ? & ?). eauto.
  - eapply picks_in_pool in Hr; [| exact Hv].
    apply uploads_filter_by_elem in Hr as (? & ? & ?). eauto.
Qed.

Lemma playlist_added_one_active (d : DB) (id : nat) (p : Playlist) (pl : gmap nat Playlist) :
  at_most_one_active d → playlists d !! id = None → is_active p = false →
  pl = <[id := p]> (playlists d) →
  ∀ i j pi pj, pl !! i = Some pi → pl !! j = Some pj →
               is_active pi = true → is_active pj = true → i = j.
Proof.
  intros Hone Hfresh Hp -> i j pi pj Hi Hj Hai Haj.
  destruct (decide (i = id)) as [->|Hni].
  { rewrite lookup_insert_eq in Hi. injection Hi as <-. congruence. }
  destruct (decide (j = id)) as [->|Hnj].
  { rewrite lookup_insert_eq in Hj. injection Hj as <-. congruence. }
  rewrite lookup_insert_ne in Hi, Hj by done. eauto.
Qed.



Lemma create_daily_playlist_row (date : option datetime) (w : World) :
  ¬ (uploads_filter_by (db w) "approved" "audio" = [] ∧
     uploads_filter_by (db w) "approved" "video" = []) →
  let id := next_id ((map_to_list (playlists (db w))).*1) in
  ∃ selected g,
    let d' := mkDB (users (db w)) (uploads (db w)) (segments (db w))
                   (<[id := daily_playlist date w]> (playlists (db w)))
                   (entries (db w) ++ entries_for id selected) in
    create_daily_playlist date w =
    (Returned (Some id),
     mkWorld d' d' (fs w) g (now w) (brain w) (brain_log w)
             (observed w ++ [(d', fs w)])).
Proof.
  intros Hne id. unfold create_daily_playlist.
  rewrite run_get_world. cbn zeta.
  rewrite !(run_bind_returned _ _ _ _ _ (Upload_query_filter_by_run _ _ _)).
  rewrite bool_decide_eq_false_2 by done.
  fold (daily_playlist date w).
  rewrite (run_bind_returned _ _ _ _ _
             (db_session_add_playlist_run (daily_playlist date w) w)).
  fold id.
  match goal with |- context [set_db ?f w] => set (w1 := set_db f w) end.
  destruct (pick_run (uploads_filter_by (db w) "approved" "audio") audio_slots w1)
    as (ap & ar & g1 & Ea & _).
  destruct (pick_run (uploads_filter_by (db w) "approved" "video") video_slots
              (set_rng g1 w1)) as (vp & vr & g2 & Ev & _).
  destruct (random_shuffle_run (ap ++ vp) (set_rng g2 (set_rng g1 w1)))
    as (sel & g3 & Es & _).
  exists sel, g3. cbn zeta.
  rewrite (run_bind_returned _ _ _ _ _ Ea).
  rewrite (run_bind_returned _ _ _ _ _ Ev).
  rewrite (run_bind_returned _ _ _ _ _ Es).
  rewrite run_bind, add_entries_run.
  unfold db_session_commit. rewrite run_modify. unfold ret.
  unfold entries_for. rewrite fmap_imap.
  reflexivity.
Qed.

Lemma deactivated_name (d : DB) (j : nat) :
  name <$> playlists (deactivated d) !! j = name <$> playlists d !! j.
Proof.
  unfold deactivated. destruct (Playlist_first_active d); [| done].
  rewrite set_is_active_lookup. destruct (decide _); [| done].
  by destruct (playlists d !! j).
Qed.

Lemma run_daily_scheduling_run (w : World) :
  ∃ r w',
    run_daily_scheduling w = (Returned r, w') ∧
    (uploads_filter_by (db w) "approved" "audio" = [] ∧
     uploads_filter_by (db w) "approved" "video" = [] → r = None ∧ w' = w) ∧
    (¬ (uploads_filter_by (db w) "approved" "audio" = [] ∧
        uploads_filter_by (db w) "approved" "video" = []) →
     ∃ id p,
       playlists (db w) !! id = None ∧
       playlists (committed w') !! id = Some p ∧
       name p = "Daily Mix - " +:+ strftime_Y_m_d (now w) ∧
       (r = None ∨
        r = Some id ∧ is_active p = true ∧ playlists (db w') !! id = Some p)).
Proof.
  unfold run_daily_scheduling, try_except. rewrite run_get_world.
  destruct (decide (uploads_filter_by (db w) "approved" "audio" = [] ∧
                    uploads_filter_by (db w) "approved" "video" = [])) as [He|Hne].
  { pose proof (create_daily_playlist_run (Some (now w)) w) as H. cbn zeta in H.
    rewrite bool_decide_eq_true_2 in H by done.
    rewrite (run_bind_returned _ _ _ _ _ H).
    exists None, w. split; [done |]. split; [done | by intros ?]. }
  destruct (create_daily_playlist_row (Some (now w)) w Hne) as (sel & g & H).
  cbn zeta in H.
  pose proof (next_id_fresh (playlists (db w))) as Hfresh.
  set (id := next_id (map_to_list (playlists (db w))).*1) in *.
  match type of H with _ = (_, ?w0) => set (w1 := w0) in * end.
  assert (playlists (db w1) !! id = Some (daily_playlist (Some (now w)) w)) as Hid1
    by apply lookup_insert_eq.
  assert (committed w1 = db w1) as Hc1 by done.
  rewrite (run_bind_returned _ _ _ _ _ H).
  destruct (generate_playlist_segments_any id w1)
    as (r2 & w2 & new & E2 & _ & _ & Hpl2 & _ & _ & Hcase & _).
  destruct Hcase as [(-> & Hc2 & _) | [(-> & _ & Hnone) | ([a ->] & Hc2)]].
  - rewrite (run_bind_returned _ _ _ _ _ E2).
    destruct (activate_playlist_run id w2)
      as (r3 & w3 & c & snaps & E3 & Hd3 & Hc3 & _); [by rewrite Hpl2, Hid1 |].
    cbn zeta in Hd3, Hc3.
    assert (∃ q, playlists (db w3) !! id = Some q ∧ is_active q = true ∧
                 name q = "Daily Mix - " +:+ strftime_Y_m_d (now w))
      as (q & Hq & Hact & Hname).
    { pose proof (deactivated_name (db w2) id) as Hn.
      rewrite Hd3, set_is_active_lookup, decide_True by done.
      rewrite Hpl2, Hid1 in Hn.
      destruct (playlists (deactivated (db w2)) !! id) as [q0|]; [| done].
      injection Hn as Hn. eexists. split; [reflexivity |]. split; [done |].
      cbn. by rewrite Hn. }
    assert (playlists (committed w3) !! id = Some q) as Hcq by (by rewrite Hc3, <- Hd3).
    destruct r3 as [b|ex].
    + rewrite (run_bind_returned _ _ _ _ _ E3).
      exists (Some id), w3. split; [done |]. split; [by intros ? |].
      intros _. exists id, q. split_and!; try done. right. done.
    + rewrite (run_bind_raised _ _ _ _ _ E3).
      exists None, w3. split; [done |]. split; [done |].
      intros _. exists id, q. split_and!; try done. by left.
  - by rewrite Hid1 in Hnone.
  - rewrite (run_bind_raised _ _ _ _ _ E2).
    exists None, w2. split; [done |]. split; [done |].
    intros _. exists id, (daily_playlist (Some (now w)) w).
    split_and!; try done; [by rewrite Hc2, Hc1 | by left].
Qed.

(** X7. [run_daily_scheduling] never raises.  Without approved audio or
    video content it returns [None] and changes nothing.  With such content
    a new playlist named [Daily Mix - YYYY-MM-DD] for the current day is in
    the committed database afterwards in every case: either the run returns
    it, and then it is active, or a later step failed, the failure was
    swallowed and the run returns [None] although the playlist was
    created. *)
Theorem run_daily_scheduling_never_raises (w : World) :
  ∃ r w',
    run_daily_scheduling w = (Returned r, w') ∧
    (uploads_filter_by (db w) "approved" "audio" = [] ∧
     uploads_filter_by (db w) "approved" "video" = [] → r = None ∧ w' = w) ∧
    (¬ (uploads_filter_by (db w) "approved" "audio" = [] ∧
        uploads_filter_by (db w) "approved" "video" = []) →
     ∃ id p, playlists (db w) !! id = None ∧
             playlists (committed w') !! id = Some p ∧
             name p = "Daily Mix - " +:+ strftime_Y_m_d (now w) ∧
             (r = None ∨ r = Some id ∧ is_active p = true)).
Proof.
  destruct (run_daily_scheduling_run w) as (r & w' & E & Hempty & Hsome).
  exists r, w'. split; [exact E |]. split; [exact Hempty |].
  intros Hne. destruct (Hsome Hne) as (id & p & ? & ? & ? & Hr).
  exists id, p. split_and!; try done. destruct Hr as [?|(? & ? & _)]; eauto.
Qed.

(** X8. The [create_daily_playlist] task never raises.  Its result is
    either a success with the id of a new playlist, which is then committed
    and active, and the name [Daily Mix - YYYY-MM-DD] of the current day, or
    the error with the fixed message [Failed to create daily playlist],
    whatever went wrong; without approved content it is this error and
    nothing was changed. *)
Theorem create_daily_playlist_task_result (w : World) :
  ∃ r w',
    create_daily_playlist_task w = (Returned r, w') ∧
    (r = ScheduleError "Failed to create daily playlist" ∨
     ∃ id p,
       r = ScheduleSuccess id ("Daily Mix - " +:+ strftime_Y_m_d (now w)) ∧
       playlists (db w) !! id = None ∧
       playlists (committed w') !! id = Some p ∧ is_active p = true) ∧
    (uploads_filter_by (db w) "approved" "audio" = [] ∧
     uploads_filter_by (db w) "approved" "video" = [] →
     r = ScheduleError "Failed to create daily playlist" ∧ w' = w).
Proof.
  destruct (run_daily_scheduling_run w) as (r & w' & E & Hempty & Hsome).
  unfold create_daily_playlist_task, try_except.
  rewrite (run_bind_returned _ _ _ _ _ E).
  destruct (decide (uploads_filter_by (db w) "approved" "audio" = [] ∧
                    uploads_filter_by (db w) "approved" "video" = [])) as [He|Hne].
  { destruct (Hempty He) as [-> ->].
    exists (ScheduleError "Failed to create daily playlist"), w.
    split; [done |]. split; [by left | done]. }
  destruct (Hsome Hne) as (id & p & Hfresh & Hc & Hname & [-> | (-> & Hact & Hd)]).
  - exists (ScheduleError "Failed to create daily playlist"), w'.
    split; [done |]. split; [by left | by intros ?].
  - rewrite run_get_world, Hd. cbn [attr]. rewrite run_ret.
    exists (ScheduleSuccess id (name p)), w'.
    split; [done |]. split; [| by intros ?].
    right. exists id, p. by rewrite Hname.
Qed.

(** ** What building the daily playlist keeps *)

(** X9. [create_daily_playlist] only adds.  From a database whose entries
    point to playlists and which has at most one active playlist, the
    users, uploads, segments, files and the AI Brain are untouched, every
    playlist that existed keeps its row and its entries, both invariants
    still hold, and every entry of the new playlist refers to an existing
    upload that is approved and of type audio or video. *)
Theorem create_daily_playlist_only_adds (date : option datetime) (w : World) :
  entries_ok (db w) → at_most_one_active (db w) →
  ∃ r w',
    create_daily_playlist date w = (Returned r, w') ∧
    users (db w') = users (db w) ∧ uploads (db w') = uploads (db w) ∧
    segments (db w') = segments (db w) ∧
    fs w' = fs w ∧ brain w' = brain w ∧ brain_log w' = brain_log w ∧
    (∀ j p, playlists (db w) !! j = Some p →
            playlists (db w') !! j = Some p ∧
            playlist_entries (db w') j = playlist_entries (db w) j) ∧
    entries_ok (db w') ∧ at_most_one_active (db w') ∧
    (∀ id e, r = Some id → e ∈ playlist_entries (db w') id →
       ∃ u, uploads (db w') !! upload_id e = Some u ∧ status u = "approved" ∧
            (media_type u = "audio" ∨ media_type u = "video")).
Proof.
  intros Hok Hone.
  pose proof (create_daily_playlist_run date w) as H. cbn zeta in H.
  destruct (bool_decide _) eqn:E.
  { exists None, w. split; [exact H |]. split_and!; done. }
  clear E.
  destruct H as (ap & ar & vp & vr & sel & g & p & _ & Hpa & _ & Hpv & Hs & Hp & H).
  pose proof (next_id_fresh (playlists (db w))) as Hfresh.
  set (id := next_id (map_to_list (playlists (db w))).*1) in *.
  eexists _, _. split; [exact H |]. cbn [db fs brain brain_log users uploads segments].
  split_and!; try done.
  - intros j pj Hj.
    assert (j ≠ id) as Hne by (intros ->; congruence).
    split; [cbn [playlists]; by rewrite lookup_insert_ne |].
    unfold playlist_entries. cbn [entries]. rewrite filter_app.
    rewrite (filter_none _ (entries_for id sel)); [by rewrite app_nil_r |].
    eapply Forall_impl; [apply entries_for_playlist_id |]. cbn. congruence.
  - unfold entries_ok. cbn [entries playlists]. apply Forall_app. split.
    + eapply Forall_impl; [exact Hok |]. cbn. intros e He.
      apply lookup_insert_is_Some'. by right.
    + eapply Forall_impl; [apply entries_for_playlist_id |]. cbn. intros e ->.
      rewrite lookup_insert_eq. eauto.
  - unfold at_most_one_active. cbn [playlists].
    by eapply (playlist_added_one_active (db w)).
  - intros id' e [= <-]. rewrite playlist_entries_new by done. intros He.
    apply entries_for_elem in He as (r & Hr & -> & _).
    destruct (selected_in_pools _ _ _ _ _ _ _ Hpa Hpv Hs Hr) as (? & ? & ?). eauto.
Qed.

Lemma create_daily_playlist_only_adds_witness :
  ∃ r w',
    create_daily_playlist None (sample_world radio_db radio_files [5; 3]%nat []) =
      (Returned r, w') ∧
    entries_ok (db w') ∧ at_most_one_active (db w') ∧
    playlist_entries (db w') 2 = playlist_entries radio_db 2.
Proof.
  destruct (create_daily_playlist_only_adds None
              (sample_world radio_db radio_files [5; 3]%nat []))
    as (r & w' & E & _ & _ & _ & _ & _ & _ & Hkeep & Hok & Hone & _).
  - apply (bool_decide_unpack _). vm_compute. exact I.
  - apply at_most_one_active_check. vm_compute. lia.
  - exists r, w'. split; [exact E |]. split; [exact Hok |]. split; [exact Hone |].
    eapply Hkeep. vm_compute. reflexivity.
Defined.

(** X10. [create_daily_playlist] does not look for a playlist of the same
    day: called twice for the same date, with approved content, it creates
    two playlists with different ids and the same name
    [Daily Mix - YYYY-MM-DD], both committed. *)
Theorem create_daily_playlist_twice (date : option datetime) (w : World) :
  (∃ i u, uploads (db w) !! i = Some u ∧ status u = "approved" ∧
          (media_type u = "audio" ∨ media_type u = "video")) →
  ∃ id1 id2 w1 w2 p1 p2,
    create_daily_playlist date w = (Returned (Some id1), w1) ∧
    create_daily_playlist date w1 = (Returned (Some id2), w2) ∧
    id1 ≠ id2 ∧
    playlists (committed w2) !! id1 = Some p1 ∧
    playlists (committed w2) !! id2 = Some p2 ∧
    name p1 = "Daily Mix - " +:+ strftime_Y_m_d (default (now w) date) ∧
    name p2 = name p1.
Proof.
  intros (i & u & Hu & Hst & Hmt).
  destruct (create_daily_playlist_row date w) as (sel1 & g1 & E1);
    [by eapply approved_content |].
  cbn zeta in E1.
  match type of E1 with _ = (_, ?w0) => set (w1 := w0) in * end.
  destruct (create_daily_playlist_row date w1) as (sel2 & g2 & E2);
    [by eapply (approved_content w1 i u) |].
  cbn zeta in E2.
  pose proof (next_id_fresh (playlists (db w1))) as Hfresh.
  set (id1 := next_id (map_to_list (playlists (db w))).*1) in *.
  set (id2 := next_id (map_to_list (playlists (db w1))).*1) in *.
  assert (id1 ≠ id2) as Hne.
  { intros Heq. rewrite <- Heq in Hfresh. cbn in Hfresh.
    by rewrite lookup_insert_eq in Hfresh. }
  eexists id1, id2, w1, _, _, _. split; [exact E1 |]. split; [exact E2 |].
  split; [exact Hne |]. cbn [committed playlists db w1].
  split; [rewrite lookup_insert_ne by done; apply lookup_insert_eq |].
  split; [apply lookup_insert_eq |]. done.
Qed.

Lemma create_daily_playlist_twice_witness :
  ∃ id1 id2 w1 w2 p1 p2,
    create_daily_playlist None (sample_world (published_db 2 1) ∅ [4; 2]%nat []) =
      (Returned (Some id1), w1) ∧
    create_daily_playlist None w1 = (Returned (Some id2), w2) ∧
    id1 ≠ id2 ∧
    playlists (committed w2) !! id1 = Some p1 ∧
    playlists (committed w2) !! id2 = Some p2 ∧
    name p1 = "Daily Mix - 2025-11-03" ∧ name p2 = name p1.
Proof.
  apply (create_daily_playlist_twice None
           (sample_world (published_db 2 1) ∅ [4; 2]%nat [])).
  eexists 1%nat, _. split; [vm_compute; reflexivity |].
  split; [reflexivity | left; reflexivity].
Defined.

(** ** What activation keeps *)

(** X11. [activate_playlist] changes active flags only.  From a state with
    at most one active playlist, whatever the id and the outcome (done, id
    unknown, export failed), the session still has at most one active
    playlist, the users, uploads, segments and entries are untouched, and
    every playlist keeps its name and its creation time; no playlist is
    added or removed.  For an unknown id the result is [False]. *)
Theorem activate_playlist_only_flags (id : nat) (w : World) :
  at_most_one_active (db w) →
  ∃ r w',
    activate_playlist id w = (r, w') ∧
    at_most_one_active (db w') ∧
    same_content (db w') (db w) ∧
    (∀ j, name <$> playlists (db w') !! j = name <$> playlists (db w) !! j) ∧
    (∀ j, created_at <$> playlists (db w') !! j = created_at <$> playlists (db w) !! j) ∧
    (playlists (db w) !! id = None → r = Returned false).
Proof.
  intros Hone.
  assert (∀ j, name <$> playlists (deactivated (db w)) !! j = name <$> playlists (db w) !! j)
    as Hname.
  { intros j. unfold deactivated. destruct (Playlist_first_active (db w)); [| done].
    rewrite set_is_active_lookup. destruct (decide _); [| done].
    by destruct (playlists (db w) !! j). }
  assert (∀ j, created_at <$> playlists (deactivated (db w)) !! j
               = created_at <$> playlists (db w) !! j) as Hcreated.
  { intros j. unfold deactivated. destruct (Playlist_first_active (db w)); [| done].
    rewrite set_is_active_lookup. destruct (decide _); [| done].
    by destruct (playlists (db w) !! j). }
  destruct (playlists (db w) !! id) as [p|] eqn:Hp.
  - destruct (activate_playlist_run id w) as (r & w' & c & snaps & E & Hd & _);
      [by rewrite Hp |].
    cbn zeta in Hd. exists r, w'. split; [exact E |]. rewrite Hd. split_and!.
    + destruct (activated_unique (db w) id Hone) as [_ Huniq]; [by rewrite Hp |].
      intros i j pi pj Hi Hj Hai Haj.
      rewrite (Huniq i pi Hi Hai). by rewrite (Huniq j pj Hj Haj).
    + apply same_content_activated.
    + intros j. rewrite set_is_active_lookup, <- Hname.
      destruct (decide _); [| done]. by destruct (playlists (deactivated (db w)) !! j).
    + intros j. rewrite set_is_active_lookup, <- Hcreated.
      destruct (decide _); [| done]. by destruct (playlists (deactivated (db w)) !! j).
    + done.
  - exists (Returned false), (set_db deactivated w).
    split; [by apply activate_playlist_missing |]. cbn [set_db db].
    split_and!; try done.
    + intros i j pi pj Hi Hj Hai.
      by rewrite (deactivated_none_active (db w) i pi Hone Hi) in Hai.
    + unfold deactivated. by destruct (Playlist_first_active (db w)).
Qed.

Lemma activate_playlist_only_flags_witness :
  ∃ r w',
    activate_playlist 2 stale_world = (r, w') ∧
    at_most_one_active (db w') ∧ same_content (db w') (db stale_world).
Proof.
  destruct (activate_playlist_only_flags 2 stale_world)
    as (r & w' & E & Hone & Hsame & _).
  - apply at_most_one_active_check. vm_compute. lia.
  - exists r, w'. split; [exact E |]. split; [exact Hone | exact Hsame].
Defined.

(** ** Retention cleanup, run again *)

Lemma cleanup_playlist_now (r : nat * Playlist) (w : World) :
  now (cleanup_playlist r w).2 = now w.
Proof.
  unfold cleanup_playlist. cbn zeta.
  rewrite (run_bind_returned _ _ _ _ _ (os_path_exists_run _ _)).
  by case_bool_decide.
Qed.

Lemma cleanup_loop_now (l : list (nat * Playlist)) :
  ∀ w : World, now (for_each l cleanup_playlist w).2 = now w.
Proof.
  induction l as [|[id p] l IH]; intros w; [done |].
  cbn [for_each].
  destruct (cleanup_playlist_run id p w) as (w1 & E1 & _).
  rewrite (run_bind_returned _ _ _ _ _ E1), IH.
  pose proof (cleanup_playlist_now (id, p) w) as H. by rewrite E1 in H.
Qed.

Lemma cleanup_old_playlists_run (days_to_keep : Z) (w : World) :
  let cutoff := now w - days_to_keep * 86400 in
  ∃ w',
    cleanup_old_playlists days_to_keep w = (Returned tt, w') ∧
    committed w' = db w' ∧ now w' = now w ∧
    users (db w') = users (db w) ∧ uploads (db w') = uploads (db w) ∧
    segments (db w') = segments (db w) ∧
    (∀ id, playlists (db w') !! id =
           if decide (removed_by_cleanup (db w) cutoff id) then None
           else playlists (db w) !! id) ∧
    entries (db w') =
      filter (λ e, ¬ removed_by_cleanup (db w) cutoff (playlist_id e))
             (entries (db w)) ∧
    (∀ path, (∀ id, removed_by_cleanup (db w) cutoff id → path ≠ m3u_path_of id) →
             fs w' !! path = fs w !! path) ∧
    (∀ id, removed_by_cleanup (db w) cutoff id → fs w' !! m3u_path_of id = None).
Proof.
  intros cutoff. unfold cleanup_old_playlists. rewrite run_get_world. cbn zeta.
  fold cutoff.
  pose proof (cleanup_loop_now
              (filter (λ r : nat * Playlist,
                         created_at r.2 < cutoff ∧ is_active r.2 = false)
                      (map_to_list (playlists (db w)))) w) as Hnow.
  destruct (cleanup_loop_run
              (filter (λ r : nat * Playlist,
                         created_at r.2 < cutoff ∧ is_active r.2 = false)
                      (map_to_list (playlists (db w)))) w)
    as (w1 & E & Hu & Hup & Hs & Hp & He & Hf & Hc).
  rewrite E in Hnow. cbn [snd] in Hnow.
  rewrite (run_bind_returned _ _ _ _ _ E).
  eexists. split; [reflexivity |]. cbn [db committed fs now].
  split_and!; try done.
  - intros id. rewrite Hp.
    destruct (decide (id ∈ _)) as [Hin|Hin], (decide (removed_by_cleanup _ _ id))
      as [Hr|Hr]; try done.
    + by apply old_playlists_elem in Hin.
    + exfalso. by apply Hin, old_playlists_elem.
  - rewrite He. apply list_filter_iff. intros e. by rewrite old_playlists_elem.
  - intros path Hpath. rewrite Hf, decide_False; [done |].
    intros (id & -> & Hin)%list_elem_of_fmap.
    apply old_playlists_elem in Hin. by apply (Hpath id).
  - intros id Hr. rewrite Hf, decide_True; [done |].
    apply list_elem_of_fmap. exists id. split; [done |]. by apply old_playlists_elem.
Qed.

Lemma DB_eq (d d' : DB) :
  users d = users d' → uploads d = uploads d' → segments d = segments d' →
  playlists d = playlists d' → entries d = entries d' → d = d'.
Proof. destruct d, d'. cbn. by intros -> -> -> -> ->. Qed.

(** X12. Retention cleanup is idempotent: after one run no playlist is
    left that is inactive and older than the cutoff, and a second run at
    the same time changes neither the database nor the file system. *)
Theorem cleanup_old_playlists_idempotent (days_to_keep : Z) (w : World) :
  ∃ w1 w2,
    cleanup_old_playlists days_to_keep w = (Returned tt, w1) ∧
    cleanup_old_playlists days_to_keep w1 = (Returned tt, w2) ∧
    (∀ id, ¬ removed_by_cleanup (db w1) (now w - days_to_keep * 86400) id) ∧
    db w2 = db w1 ∧ fs w2 = fs w1.
Proof.
  destruct (cleanup_old_playlists_run days_to_keep w)
    as (w1 & E1 & _ & Hn1 & _ & _ & _ & Hp1 & _). cbn zeta in Hp1.
  destruct (cleanup_old_playlists_run days_to_keep w1)
    as (w2 & E2 & _ & _ & Hu2 & Hup2 & Hs2 & Hp2 & He2 & Hf2 & _).
  cbn zeta in Hp2, He2, Hf2. rewrite Hn1 in Hp2, He2, Hf2.
  assert (∀ id, ¬ removed_by_cleanup (db w1) (now w - days_to_keep * 86400) id)
    as Hnone.
  { intros id. unfold removed_by_cleanup at 1. rewrite Hp1.
    destruct (decide _) as [Hr|Hr]; [tauto |].
    unfold removed_by_cleanup in Hr. by destruct (playlists (db w) !! id). }
  exists w1, w2. split; [exact E1 |]. split; [exact E2 |]. split; [exact Hnone |].
  split.
  - apply DB_eq; try done.
    + apply map_eq. intros id. rewrite Hp2. by rewrite decide_False.
    + rewrite He2. apply filter_all, Forall_forall. intros e _. apply Hnone.
  - apply map_eq. intros path. apply Hf2. intros id Hr. by apply Hnone in Hr.
Qed.

(** X13. Retention cleanup keeps the database consistent: if every entry
    points to a playlist and at most one playlist is active, this still holds
    afterwards; the references of the entries of a playlist stay intact; and
    a playlist that is kept keeps exactly its entries. *)
Theorem cleanup_old_playlists_keeps_integrity (days_to_keep : Z) (w : World) :
  entries_ok (db w) → at_most_one_active (db w) →
  ∃ w',
    cleanup_old_playlists days_to_keep w = (Returned tt, w') ∧
    entries_ok (db w') ∧ at_most_one_active (db w') ∧
    (∀ id, refs_ok (db w) id → refs_ok (db w') id) ∧
    (∀ id, is_Some (playlists (db w') !! id) →
           playlist_entries (db w') id = playlist_entries (db w) id).
Proof.
  intros Hok Hone.
  destruct (cleanup_old_playlists_run days_to_keep w)
    as (w' & E & _ & _ & Hu & Hup & _ & Hp & He & _). cbn zeta in Hp, He.
  set (cutoff := now w - days_to_keep * 86400) in *.
  exists w'. split; [exact E |]. split_and!.
  - unfold entries_ok in *. rewrite He. apply Forall_forall. intros e Hin.
    apply list_elem_of_filter in Hin as [Hkeep Hin].
    rewrite Hp, decide_False by done.
    by apply (proj1 (Forall_forall _ _) Hok).
  - intros i j pi pj Hi Hj. rewrite Hp in Hi, Hj.
    destruct (decide _); [done |]. destruct (decide _); [done |]. eauto.
  - intros id. unfold refs_ok, playlist_entries, entry_ok.
    rewrite He, Hu, Hup, !Forall_forall. intros H e Hin.
    apply list_elem_of_filter in Hin as [Hid Hin].
    apply list_elem_of_filter in Hin as [_ Hin].
    apply H. by apply list_elem_of_filter.
  - intros id Hid. unfold playlist_entries. rewrite He, list_filter_filter.
    apply list_filter_iff. intros e. split; [tauto |]. intros Heq.
    split; [done |]. rewrite Heq. rewrite Hp in Hid.
    destruct (decide _) as [Hr|Hr]; [by destruct Hid | done].
Qed.

Lemma cleanup_old_playlists_keeps_integrity_witness :
  ∃ w',
    cleanup_old_playlists 7 radio_world = (Returned tt, w') ∧
    entries_ok (db w') ∧ at_most_one_active (db w').
Proof.
  destruct (cleanup_old_playlists_keeps_integrity 7 radio_world)
    as (w' & E & Hok & Hone & _).
  - apply (bool_decide_unpack _). vm_compute. exact I.
  - apply at_most_one_active_check. vm_compute. lia.
  - exists w'. split; [exact E |]. split; [exact Hok | exact Hone].
Defined.

Lemma string_length_app (s t : string) :
  String.length (s +:+ t) = (String.length s + String.length t)%nat.
Proof.
  induction s as [|a s IH]; [done |].
  change (S (String.length (s +:+ t)) = S (String.length s + String.length t)).
  by rewrite IH.
Qed.

Lemma string_app_inj_r (t : string) : Inj (=) (=) (λ s, s +:+ t).
Proof.
  intros s1. induction s1 as [|a s1 IH]; intros [|b s2] H; cbn beta in H.
  - done.
  - apply (f_equal String.length) in H.
    rewrite !string_length_app in H. cbn in H. lia.
  - apply (f_equal String.length) in H.
    rewrite !string_length_app in H. cbn in H. lia.
  - change (String a (s1 +:+ t) = String b (s2 +:+ t)) in H.
    injection H as -> H. f_equal. by apply IH.
Qed.

Lemma m3u_path_of_inj : Inj (=) (=) m3u_path_of.
Proof.
  intros i j H. unfold m3u_path_of, os_path_join in H.
  do 3 apply (inj (String.app _)) in H.
  apply (string_app_inj_r ".m3u") in H. by apply (inj pretty) in H.
Qed.

(** X14. Retention cleanup deletes no file of a playlist it keeps: the
    export file of every playlist that is still in the database afterwards
    is as it was (the export paths of different playlists differ), and so
    is [current.m3u], the file the stream reads. *)
Theorem cleanup_old_playlists_spares_files (days_to_keep : Z) (w : World) :
  ∃ w',
    cleanup_old_playlists days_to_keep w = (Returned tt, w') ∧
    (∀ id, is_Some (playlists (db w') !! id) →
           fs w' !! m3u_path_of id = fs w !! m3u_path_of id) ∧
    fs w' !! os_path_join playlist_dir "current.m3u" =
      fs w !! os_path_join playlist_dir "current.m3u".
Proof.
  destruct (cleanup_old_playlists_run days_to_keep w)
    as (w' & E & _ & _ & _ & _ & _ & Hp & _ & Hf & _). cbn zeta in Hp, Hf.
  exists w'. split; [exact E |]. split.
  - intros id Hid. apply Hf. intros j Hr Heq. apply m3u_path_of_inj in Heq as <-.
    rewrite Hp, decide_True in Hid by done. by destruct Hid.
  - apply Hf. intros id _ Heq. by apply (m3u_path_not_current id).
Qed.

(** ** The retries of [generate_dj_intro] *)

(** X15. The only exception that leaves [generate_dj_intro] is the retry
    request: it is raised only while fewer than [max_retries] = 3 retries
    were made, with a countdown of 2 to the power of the retries made, and
    from the third retry on the task always returns a result.  Unless the
    result is a success, the database, session and committed, is as before:
    a failed attempt leaves no segment behind.  For an upload that does not
    exist the task returns the error [Upload not found] at once and changes
    nothing. *)
Theorem generate_dj_intro_retry_bound (retries : Z) (upload_id : nat) (w : World) :
  ∃ r w',
    generate_dj_intro retries upload_id w = (r, w') ∧
    (∀ e, r = Raised e → e = Retry (2 ^ retries) ∧ retries < max_retries) ∧
    (max_retries ≤ retries → ∃ res, r = Returned res) ∧
    ((∀ s t p, r ≠ Returned (TaskSuccess s t p)) →
     db w' = db w ∧ committed w' = committed w) ∧
    (uploads (db w) !! upload_id = None →
     r = Returned (TaskError "Upload not found") ∧ w' = w).
Proof.
  destruct (uploads (db w) !! upload_id) as [upload|] eqn:Hu.
  2:{ exists (Returned (TaskError "Upload not found")), w. split.
      - unfold generate_dj_intro, try_except. by rewrite run_get_world, Hu.
      - split_and!; try done. eauto. }
  destruct (Segment_first (db w) upload_id) as [s|] eqn:Hs.
  { exists (Returned (TaskSkipped "Intro already exists")), w. split.
    - apply generate_dj_intro_skipped; [by rewrite Hu | by rewrite Hs].
    - split_and!; try done. eauto. }
  destruct (users (db w) !! user_id upload) as [user|] eqn:Hus.
  - destruct (generate_dj_intro_run retries upload_id w upload user Hu Hus Hs)
      as (r & w' & t & E & _ & _ & _ & Hcase).
    exists r, w'. split; [exact E |].
    destruct (brain_audio (tail (brain w))).
    + destruct Hcase as (pers & audio & -> & _). split_and!; try done.
      * eauto.
      * intros Hno. by destruct (Hno _ _ _ eq_refl).
    + destruct Hcase as (-> & Hd & Hc & _). case_bool_decide as Hlt.
      * split_and!; try done.
        -- by intros e [= <-].
        -- lia.
      * split_and!; try done. eauto.
  - exists (if bool_decide (retries < max_retries)
            then Raised (Retry (2 ^ retries))
            else Returned (TaskError (exn_message (AttributeError "username")))), w.
    split.
    + unfold generate_dj_intro, try_except. rewrite run_get_world, Hu, Hs.
      rewrite (run_bind_raised _ _ _ _ _ (upload_metadata_raises upload w Hus)).
      by case_bool_decide.
    + case_bool_decide as Hlt.
      * split_and!; try done.
        -- by intros e [= <-].
        -- lia.
      * split_and!; try done. eauto.
Qed.

(** ** From the intro task to the export *)






(** ** The personality of the hour *)

(** X18. [select_personality] never raises, draws from the random
    generator only, and returns one of the four known personalities: one of
    the two of the time slot of the hour (6-10, 10-16, 16-20, else), where
    every hour outside 6..19, also one outside 0..23, falls in the night
    slot.  An hour argument of 0 is taken as not given: the hour of the
    clock is used instead of midnight. *)
Theorem select_personality_of_hour (time_of_day : option Z) (w : World) :
  let h := match time_of_day with
           | Some 0 | None => hour (now w)
           | Some h => h
           end in
  ∃ p g,
    select_personality time_of_day w = (Returned p, set_rng g w) ∧
    p ∈ personalities ∧
    (6 ≤ h < 10 → p = "energetic" ∨ p = "professional") ∧
    (10 ≤ h < 16 → p = "professional" ∨ p = "chill") ∧
    (16 ≤ h < 20 → p = "energetic" ∨ p = "quirky") ∧
    (h < 6 ∨ 20 ≤ h → p = "chill" ∨ p = "quirky").
Proof.
  intros h.
  assert (∃ p g, select_personality time_of_day w = (Returned p, set_rng g w) ∧
                 p ∈ personality_bucket h) as (p & g & E & Hp).
  { unfold select_personality, personality_bucket. rewrite run_get_world. cbn zeta.
    assert (match time_of_day with
            | Some h0 => if bool_decide (h0 = 0) then hour (now w) else h0
            | None => hour (now w)
            end = h) as ->.
    { subst h. destruct time_of_day as [[| |]|]; done. }
    repeat case_bool_decide; apply random_choice_pair_run. }
  exists p, g. split; [exact E |]. split; [by eapply personality_bucket_known |].
  unfold personality_bucket in Hp.
  repeat case_bool_decide; rewrite !elem_of_cons, elem_of_nil in Hp;
    split_and!; intros; try lia; tauto.
Qed.

(** ** Transitions and templates *)



(** X20. The fallback intro names the item and its creator: for a
    metadata dict with a title and a user name the text of every template
    contains both, as Python prints them, the title first; the dict returned
    carries the personality it was asked for.  A personality that is not
    one of the four gets the text of the professional template, in
    [generate_fallback_intro] and in [generate_fallback_transition]. *)
Theorem fallback_templates (metadata : gmap string (option string))
    (personality : string) (t u : option string) :
  metadata !! "title" = Some t → metadata !! "username" = Some u →
  (∃ text before between after,
     generate_fallback_intro metadata personality !! "text" = Some text ∧
     text = before +:+ py_str t +:+ between +:+ py_str u +:+ after) ∧
  generate_fallback_intro metadata personality !! "personality" = Some personality ∧
  (personality ∉ personalities →
   generate_fallback_intro metadata personality !! "text" =
   generate_fallback_intro metadata "professional" !! "text" ∧
   ∀ current,
     generate_fallback_transition current metadata personality !! "text" =
     generate_fallback_transition current metadata "professional" !! "text").
Proof.
  intros Ht Hu. split; [| split].
  - unfold generate_fallback_intro. cbn zeta. rewrite lookup_insert_eq.
    rewrite (lookup_insert_ne _ "energetic" "professional") by done.
    rewrite (lookup_insert_ne _ "chill" "professional") by done.
    rewrite lookup_insert_eq. cbn [default from_option id].
    rewrite !lookup_insert, lookup_singleton.
    unfold metadata_get. rewrite Ht, Hu.
    repeat case_decide; cbn [default from_option id];
      eexists _, _, _, _; (split; reflexivity).
  - unfold generate_fallback_intro. cbn zeta.
    rewrite lookup_insert_ne by done. apply lookup_insert_eq.
  - intros Hno. unfold personalities in Hno.
    rewrite !not_elem_of_cons in Hno. destruct Hno as (? & ? & ? & ? & _).
    split; [| intros current].
    + unfold generate_fallback_intro. cbn zeta. rewrite !lookup_insert_eq.
      f_equal.
      rewrite (lookup_insert_ne _ "energetic" personality) by done.
      rewrite (lookup_insert_ne _ "chill" personality) by done.
      rewrite (lookup_insert_ne _ "professional" personality) by done.
      by rewrite lookup_singleton_ne.
    + unfold generate_fallback_transition. cbn zeta. rewrite !lookup_insert_eq.
      f_equal.
      rewrite (lookup_insert_ne _ "energetic" personality) by done.
      rewrite (lookup_insert_ne _ "chill" personality) by done.
      rewrite (lookup_insert_ne _ "professional" personality) by done.
      by rewrite lookup_singleton_ne.
Qed.

Lemma fallback_templates_witness :
  ∃ text before between after,
    generate_fallback_intro
      (metadata_dict (mkUpload 1 "Song A" None "audio" None None None "approved" 0)
                     (mkUser "alice")) "chill" !! "text" = Some text ∧
    text = before +:+ "Song A" +:+ between +:+ "alice" +:+ after.
Proof.
  apply (fallback_templates
           (metadata_dict (mkUpload 1 "Song A" None "audio" None None None "approved" 0)
                          (mkUser "alice")) "chill" (Some "Song A") (Some "alice"));
    vm_compute; reflexivity.
Defined.

(** ** The health check *)

(** X21. The overall status of [health_check] is [healthy] exactly when
    the database probe and the AI Brain probe both succeed, and [error]
    otherwise; it is never [warning].  The disk usage does not enter it: the
    disk status is [healthy] below 90 percent and [warning] otherwise
    (also for a ratio that is not a number), never [error]. *)
Theorem health_check_overall (db_ok ai_brain_ok : bool) (usage : float) :
  let h := health_check db_ok ai_brain_ok usage in
  overall h = (if db_ok && ai_brain_ok then "healthy" else "error") ∧
  (disk_status h = "healthy" ∨ disk_status h = "warning") ∧
  (disk_status h = "healthy" ↔ PrimFloat.ltb usage 0x1.ccccccccccccdp-1%float = true) ∧
  (database h = "healthy" ↔ db_ok = true) ∧
  (ai_brain h = "healthy" ↔ ai_brain_ok = true).
Proof.
  unfold health_check. cbn zeta.
  destruct (PrimFloat.ltb usage _), db_ok, ai_brain_ok; cbn; repeat split; auto; done.
Qed.

(** ** Playback status *)

Lemma replay_rows (d : DB) (calls : list (datetime * nat * option nat)) :
  ∀ p, stream_status p = [] ∨ (∃ s, stream_status p = [s] ∧ listeners s = 0) →
       stream_status (replay d calls p) = [] ∨
       ∃ s, stream_status (replay d calls p) = [s] ∧ listeners s = 0.
Proof.
  induction calls as [|c calls IH]; intros p Hp; [done |].
  cbn [replay foldl]. apply IH. right.
  unfold update_now_playing. cbn [stream_status].
  destruct Hp as [-> | (s & -> & Hs)]; eauto.
Qed.

(** X22. The [StreamStatus] table keeps a single row: starting from an
    empty table, after any history of calls of [update_now_playing] a
    further call leaves exactly one row, which shows the upload, the segment
    and the time of that last call and has no listeners. *)
Theorem update_now_playing_single_row (d : DB)
    (calls : list (datetime * nat * option nat)) (t : datetime) (upload_id : nat)
    (segment_id : option nat) (p : Playback) :
  stream_status p = [] →
  stream_status (update_now_playing d t upload_id segment_id (replay d calls p)) =
  [mkStreamStatus (Some upload_id) segment_id (Some t) 0].
Proof.
  intros Hp. unfold update_now_playing. cbn [stream_status].
  destruct (replay_rows d calls p) as [-> | (s & -> & ->)]; eauto.
Qed.

Lemma update_now_playing_single_row_witness :
  stream_status
    (update_now_playing radio_db 300 2 None
       (replay radio_db [(100, 1%nat, Some 1%nat); (200, 3%nat, None)]
               (mkPlayback [] ∅))) =
  [mkStreamStatus (Some 2%nat) None (Some 300) 0].
Proof.
  apply (update_now_playing_single_row radio_db
           [(100, 1%nat, Some 1%nat); (200, 3%nat, None)] 300 2 None
           (mkPlayback [] ∅)).
  reflexivity.
Defined.

Lemma update_now_playing_columns (d : DB) (t : datetime) (upload_id : nat)
    (segment : option nat) (p : Playback) (u : nat) :
  columns_of (update_now_playing d t upload_id segment p) u =
  if decide (u = upload_id ∧ is_Some (uploads d !! upload_id))
  then mkPlayColumns (played_count (columns_of p u) + 1) (Some t)
                     (thumbnail_path (columns_of p u))
  else columns_of p u.
Proof.
  unfold update_now_playing, columns_of. cbn [play_columns].
  destruct (decide _) as [[-> [x Hx]]|Hno].
  - by rewrite Hx, lookup_insert_eq.
  - destruct (uploads d !! upload_id) as [x|] eqn:Hx; [| done].
    rewrite lookup_insert_ne; [done |]. intros <-. apply Hno. eauto.
Qed.

Lemma replay_cons (d : DB) (c : datetime * nat * option nat)
    (calls : list (datetime * nat * option nat)) (p : Playback) :
  replay d (c :: calls) p = replay d calls (update_now_playing d c.1.1 c.1.2 c.2 p).
Proof. reflexivity. Qed.

(** X23. The play counter counts the plays: after a history of calls of
    [update_now_playing], the [played_count] of an upload that exists has
    grown by the number of calls made for it, whatever else was played in
    between; calls for an id that is not an upload count nothing.  The
    thumbnail path is never changed. *)
Theorem replay_counts_plays (d : DB) (calls : list (datetime * nat * option nat))
    (p : Playback) (u : nat) :
  played_count (columns_of (replay d calls p) u) =
  played_count (columns_of p u) +
  (if decide (is_Some (uploads d !! u))
   then Z.of_nat (length (filter (λ c, c.1.2 = u) calls))
   else 0) ∧
  thumbnail_path (columns_of (replay d calls p) u) = thumbnail_path (columns_of p u).
Proof.
  revert p. induction calls as [|[[t i] s] calls IH]; intros p.
  - cbn. split; [| done]. destruct (decide _); lia.
  - rewrite replay_cons. cbn [fst snd].
    destruct (IH (update_now_playing d t i s p)) as [-> ->].
    rewrite update_now_playing_columns, filter_cons. cbn [fst snd].
    destruct (decide (u = i)) as [->|Hne].
    + destruct (decide (is_Some (uploads d !! i))) as [Hi|Hi].
      * rewrite decide_True by done. cbn [played_count thumbnail_path].
        rewrite (decide_True (P := i = i)) by done. cbn [length].
        split; [lia | done].
      * rewrite decide_False by tauto. split; [lia | done].
    + rewrite decide_False by tauto. rewrite (decide_False (P := i = u)) by done.
      split; [| done]. by destruct (decide (is_Some _)).
Qed.

(** X24. What [get_current_playing] reports right after
    [update_now_playing] for a non-zero upload id: the upload just set, with
    the name of its user, the segment if a non-zero segment id was given and
    that segment exists, the time of the update in ISO format and the
    listeners of the status row.  If the upload does not exist,
    [update_now_playing] has stored its id all the same (SQLite, the default
    database, does not enforce the foreign key) and [get_current_playing]
    raises [AttributeError]; so it does when the user of the upload is
    missing. *)
Theorem get_current_playing_after_update (d : DB) (t : datetime) (upload_id : nat)
    (segment : option nat) (p : Playback) :
  upload_id ≠ 0%nat →
  get_current_playing d (update_now_playing d t upload_id segment p) =
  match uploads d !! upload_id with
  | None => Raised (AttributeError "id")
  | Some upload =>
      match users d !! user_id upload with
      | None => Raised (AttributeError "username")
      | Some user =>
          Returned (Some (mkNowPlaying
            upload_id (title upload) (username user) (media_type upload)
            (category upload) (duration upload)
            (thumbnail_path (columns_of p upload_id))
            (match segment with
             | None | Some O => None
             | Some sid => (λ s, (segment_id s, dj_intro_text s)) <$> Segment_get d sid
             end)
            (Some (isoformat t))
            (match stream_status p with s :: _ => listeners s | [] => 0 end)))
      end
  end.
Proof.
  intros Hne. unfold get_current_playing, update_now_playing.
  cbn [stream_status play_columns].
  destruct upload_id as [|n]; [done |].
  destruct (uploads d !! S n) as [upload|] eqn:Hu.
  - destruct (stream_status p) as [|s rest]; cbn [head current_upload_id];
      rewrite Hu; destruct (users d !! user_id upload) as [user|]; try done;
      unfold columns_of; cbn [play_columns current_segment_id started_at listeners];
      rewrite lookup_insert_eq; cbn [default from_option id thumbnail_path fmap option_fmap option_map];
      by destruct segment as [[|sid]|].
  - destruct (stream_status p) as [|s rest]; cbn [head current_upload_id];
      by rewrite Hu.
Qed.

Lemma get_current_playing_after_update_witness :
  get_current_playing radio_db
    (update_now_playing radio_db 1762164000 3 (Some 1%nat) (mkPlayback [] ∅)) =
  Returned (Some (mkNowPlaying 3 "Clip C" "alice" "video" None (Some 0) None
                    (Some (1%nat, Some "Next up, Clip C"))
                    (Some "2025-11-03T10:00:00") 0)).
Proof.
  rewrite (get_current_playing_after_update radio_db 1762164000 3 (Some 1%nat)
             (mkPlayback [] ∅)); [| done].
  vm_compute. reflexivity.
Defined.

(** ** Recommendations *)

Lemma insert_by_Permutation {A} (le : A → A → bool) (x : A) (l : list A) :
  insert_by le x l ≡ₚ x :: l.
Proof.
  induction l as [|y l IH]; [done |]. cbn.
  destruct (le x y); [done |]. by rewrite IH, Permutation_swap.
Qed.

Lemma order_by_Permutation {A} (le : A → A → bool) (l : list A) :
  order_by le l ≡ₚ l.
Proof.
  induction l as [|x l IH]; [done |]. cbn.
  by rewrite insert_by_Permutation, IH.
Qed.

Lemma unique_by_id_NoDup (recs : list (nat * Upload)) :
  ∀ seen : gset nat,
    NoDup recs.*1 → (∀ i, i ∈ recs.*1 → i ∉ seen) →
    unique_by_id seen recs = recs.
Proof.
  induction recs as [|r recs IH]; intros seen Hnd Hseen; [done |].
  cbn [unique_by_id]. cbn [fmap list_fmap] in Hnd, Hseen.
  apply NoDup_cons in Hnd as [Hr Hnd].
  rewrite decide_False by (apply Hseen; left).
  f_equal. apply IH; [done |]. intros i Hi.
  rewrite not_elem_of_union, not_elem_of_singleton. split.
  - intros ->. done.
  - apply Hseen. by right.
Qed.

Lemma recommendation_query_NoDup (p : Playback) (w : World) :
  NoDup (recommendation_query p w).*1.
Proof.
  unfold recommendation_query.
  eapply sublist_NoDup; [apply (NoDup_fst_map_to_list (uploads (db w))) |].
  apply fmap_sublist, sublist_filter.
Qed.

Lemma recommendation_query_elem (p : Playback) (w : World) (r : nat * Upload) :
  r ∈ recommendation_query p w →
  uploads (db w) !! r.1 = Some r.2 ∧ status r.2 = "approved" ∧
  not_recently_played p (now w - 24 * 3600) r.
Proof.
  unfold recommendation_query. rewrite list_elem_of_filter.
  destruct r as [i u]. rewrite elem_of_map_to_list. tauto.
Qed.

Lemma fresh_content_elem (p : Playback) (query : list (nat * Upload)) (r : nat * Upload) :
  r ∈ fresh_content p query → r ∈ query ∧ played_count (columns_of p r.1) = 0.
Proof.
  unfold fresh_content. intros Hr. apply elem_of_take in Hr as (i & Hr & _).
  apply list_elem_of_lookup_2 in Hr. rewrite order_by_Permutation in Hr.
  apply list_elem_of_filter in Hr. tauto.
Qed.

Lemma popular_content_elem (p : Playback) (query : list (nat * Upload)) (r : nat * Upload) :
  r ∈ popular_content p query → r ∈ query ∧ 1 ≤ played_count (columns_of p r.1) ≤ 5.
Proof.
  unfold popular_content. intros Hr. apply elem_of_take in Hr as (i & Hr & _).
  apply list_elem_of_lookup_2 in Hr. rewrite order_by_Permutation in Hr.
  apply list_elem_of_filter in Hr. tauto.
Qed.

Lemma limit_NoDup (le : nat * Upload → nat * Upload → bool)
    (P : nat * Upload → Prop) `{!∀ r, Decision (P r)} (query : list (nat * Upload)) :
  NoDup query.*1 → NoDup (take 10 (order_by le (filter P query))).*1.
Proof.
  intros Hq.
  eapply sublist_NoDup; [| apply fmap_sublist, sublist_take].
  rewrite order_by_Permutation.
  eapply sublist_NoDup; [exact Hq |].
  apply fmap_sublist, sublist_filter.
Qed.

Lemma recommendations_NoDup (p : Playback) (query : list (nat * Upload)) :
  NoDup query.*1 → NoDup (fresh_content p query ++ popular_content p query).*1.
Proof.
  intros Hq. rewrite fmap_app. apply NoDup_app.
  split; [by apply limit_NoDup |]. split; [| by apply limit_NoDup].
  intros i Hf Hp.
  apply list_elem_of_fmap in Hf as (rf & -> & Hf).
  apply list_elem_of_fmap in Hp as (rp & Heq & Hp).
  apply fresh_content_elem in Hf as [_ Hf].
  apply popular_content_elem in Hp as [_ Hp].
  rewrite Heq in Hf. lia.
Qed.

(** X25. [generate_content_recommendations] never raises and returns at
    most 20 uploads with pairwise different ids, each of them approved, not
    played in the last 24 hours and played at most 5 times.  The result is
    a permutation of the fresh picks followed by the popular picks: the
    two groups never overlap, so that the removal of duplicates removes
    nothing, and they never hold more than 20 items, so that the final
    slice cuts nothing. *)
Theorem generate_content_recommendations_sound (p : Playback) (w : World) :
  ∃ recs g,
    generate_content_recommendations p w = (Returned recs, set_rng g w) ∧
    recs ≡ₚ fresh_content p (recommendation_query p w) ++
            popular_content p (recommendation_query p w) ∧
    (length recs ≤ 20)%nat ∧
    NoDup recs.*1 ∧
    ∀ r, r ∈ recs →
      uploads (db w) !! r.1 = Some r.2 ∧ status r.2 = "approved" ∧
      not_recently_played p (now w - 24 * 3600) r ∧
      0 ≤ played_count (columns_of p r.1) ≤ 5.
Proof.
  pose proof (recommendations_NoDup p _ (recommendation_query_NoDup p w)) as Hnd.
  unfold generate_content_recommendations. rewrite run_get_world. cbn zeta.
  fold (recommendation_query p w).
  rewrite (unique_by_id_NoDup _ ∅ Hnd) by (intros i _; apply not_elem_of_empty).
  destruct (random_shuffle_run (fresh_content p (recommendation_query p w) ++
                                popular_content p (recommendation_query p w)) w)
    as (shuffled & g & E & Hperm).
  rewrite (run_bind_returned _ _ _ _ _ E).
  assert (length shuffled ≤ 20)%nat as Hlen.
  { rewrite Hperm, length_app. unfold fresh_content, popular_content.
    rewrite !length_take. lia. }
  rewrite take_ge by done.
  exists shuffled, g. split; [done |]. split; [done |]. split; [done |].
  split; [by rewrite Hperm |].
  intros r Hr. rewrite Hperm in Hr. apply elem_of_app in Hr as [Hr|Hr].
  - apply fresh_content_elem in Hr as [Hq Hc].
    destruct (recommendation_query_elem p w r Hq) as (? & ? & ?).
    split_and!; try done; lia.
  - apply popular_content_elem in Hr as [Hq Hc].
    destruct (recommendation_query_elem p w r Hq) as (? & ? & ?).
    split_and!; try done; lia.
Qed.

(** ** Checks on concrete values *)

Example strftime_Y_m_d_example : strftime_Y_m_d 1762164000 = "2025-11-03".
Proof. vm_compute. reflexivity. Qed.

Example strftime_B_d_Y_example : strftime_B_d_Y 1709164799 = "February 28, 2024".
Proof. vm_compute. reflexivity. Qed.

Example strftime_Ymd_HMS_example : strftime_Ymd_HMS 1709251199 = "20240229_235959".
Proof. vm_compute. reflexivity. Qed.

Example audio_slots_value : audio_slots = 35%nat.
Proof. vm_compute. reflexivity. Qed.

Example video_slots_value : video_slots = 15%nat.
Proof. vm_compute. reflexivity. Qed.

Example int_of_float_truncates :
  int_of_float (PrimFloat.mul (PrimFloat.of_uint63 3%uint63)
                              0x1.6666666666666p-1%float) = 2.
Proof. vm_compute. reflexivity. Qed.

Example strip_example : strip "  Here comes Song A.  " = "Here comes Song A.".
Proof. vm_compute. reflexivity. Qed.

Example sorted_by_position_stable :
  sorted_by_position [mkPlaylistEntry 2 3 1; mkPlaylistEntry 2 1 0;
                      mkPlaylistEntry 2 2 1]
  = [mkPlaylistEntry 2 1 0; mkPlaylistEntry 2 3 1; mkPlaylistEntry 2 2 1].
Proof. vm_compute. reflexivity. Qed.

(** The daily run on [radio_world], with the AI Brain down: a third playlist
    is built from the three approved uploads, activated in place of the
    first, and exported. *)
Example run_daily_scheduling_example :
  ∃ w', run_daily_scheduling radio_world = (Returned (Some 3%nat), w') ∧
        is_active <$> playlists (committed w') !! 3%nat = Some true ∧
        is_active <$> playlists (committed w') !! 1%nat = Some false ∧
        upload_id <$> playlist_entries (committed w') 3 = [2; 1; 3]%nat ∧
        fs w' !! os_path_join playlist_dir "current.m3u" =
          Some (unlines ["#EXTM3U"; "#EXTINF:180,Song A - alice"; "/m/a.mp3";
                         "#EXTINF:-1,DJ Intro - Clip C"; "/m/intro_3.mp3";
                         "#EXTINF:-1,Clip C - alice"; "/m/c.mp4"]).
Proof. eexists. split; [vm_compute; reflexivity |]. vm_compute. done. Qed.

Example health_check_full_disk :
  health_check true true 0x1.e666666666666p-1%float =
  mkHealth "healthy" "healthy" 0x1.e666666666666p-1%float "warning" "healthy".
Proof. vm_compute. reflexivity. Qed.

Example health_check_no_brain :
  overall (health_check true false 0x1p-1%float) = "error".
Proof. vm_compute. reflexivity. Qed.

Example generate_content_recommendations_example :
  (generate_content_recommendations radio_playback radio_world).1 =
  Returned [(1%nat, mkUpload 1 "Song A" None "audio" None (Some "/m/a.mp3")
                             (Some 180) "approved" 1000);
            (2%nat, mkUpload 1 "Song B" None "audio" None (Some "/m/b.mp3")
                             None "approved" 1000)].
Proof. vm_compute. reflexivity. Qed.

Example isoformat_example : isoformat 1762164000 = "2025-11-03T10:00:00".
Proof. vm_compute. reflexivity. Qed.
